(** * swift-posix: the C process shim and the POSIX test helper

    A shallow embedding of

    - [Sources/CPOSIXProcessShim/include/shim.h]: the [swift_W*] wrappers
      that expose the wait-status macros of [<sys/wait.h>] to Swift;
    - [Sources/CPOSIXTestHelper/main.c]: the out-of-process test oracle
      ([print_status], [print_error], [main]).

    A C [int] is a [Z]; every value the helper computes stays far inside the
    32-bit range except the result of [atoi], whose wrap-around is written
    out.  A C truth value is the [int] 0 or 1 ([Z.b2z]). *)

From Stdlib Require Import ZArith List Bool Ascii String Lia DecimalString DecimalZ.
Import ListNotations.

Local Open Scope string_scope.
Local Open Scope list_scope.
Local Open Scope Z_scope.

(** String concatenation, as [printf] lays a line out. *)
Local Infix "+++" := String.append (right associativity, at level 60).

(** The shim is compiled on the two platforms of
    [#if defined(__APPLE__) || defined(__linux__)]. *)
Inductive platform : Type := Linux | Darwin.

(* ================================================================== *)
(** ** Wait-status macros *)
(* ================================================================== *)

Module WaitStatus.

(** Conversion to [signed char], as in glibc's [__WIFSIGNALED]. *)
Definition signed_char (x : Z) : Z := (x + 128) mod 256 - 128.

(** Modelled from the spec: the macros [WIFEXITED], [WEXITSTATUS],
    [WIFSIGNALED], [WTERMSIG], [WIFSTOPPED], [WSTOPSIG], [WIFCONTINUED] and
    [WCOREDUMP] come from the platform's [<sys/wait.h>], which is not part
    of the repository.  The spec calls the status a "bit-packed OS status
    word" whose "exit code is masked to its valid range"; the bodies below
    are the ones the two supported platforms give to that word (glibc's
    [bits/waitstatus.h] on Linux, [sys/wait.h] on Darwin). *)
Module Glibc.
(** [#define __WEXITSTATUS(status) (((status) & 0xff00) >> 8)] *)
Definition WEXITSTATUS (status : Z) : Z := Z.shiftr (Z.land status 0xff00) 8.
(** [#define __WTERMSIG(status) ((status) & 0x7f)] *)
Definition WTERMSIG (status : Z) : Z := Z.land status 0x7f.
(** [#define __WSTOPSIG(status) __WEXITSTATUS(status)] *)
Definition WSTOPSIG (status : Z) : Z := WEXITSTATUS status.
(** [#define __WIFEXITED(status) (__WTERMSIG(status) == 0)] *)
Definition WIFEXITED (status : Z) : Z := Z.b2z (WTERMSIG status =? 0).
(** [#define __WIFSIGNALED(status)
       (((signed char) (((status) & 0x7f) + 1) >> 1) > 0)] *)
Definition WIFSIGNALED (status : Z) : Z :=
  Z.b2z (0 <? Z.shiftr (signed_char (Z.land status 0x7f + 1)) 1).
(** [#define __WIFSTOPPED(status) (((status) & 0xff) == 0x7f)] *)
Definition WIFSTOPPED (status : Z) : Z := Z.b2z (Z.land status 0xff =? 0x7f).
(** [#define __W_CONTINUED 0xffff] *)
Definition W_CONTINUED : Z := 0xffff.
(** [#define __WIFCONTINUED(status) ((status) == __W_CONTINUED)] *)
Definition WIFCONTINUED (status : Z) : Z := Z.b2z (status =? W_CONTINUED).
(** [#define __WCOREDUMP(status) ((status) & __WCOREFLAG)], flag [0x80] *)
Definition WCOREDUMP (status : Z) : Z := Z.land status 0x80.
End Glibc.

Module Xnu.
(** [#define _WSTATUS(x) (_W_INT(x) & 0177)] *)
Definition WSTATUS (x : Z) : Z := Z.land x 127.
(** [#define _WSTOPPED 0177] *)
Definition WSTOPPED : Z := 127.
(** [#define WEXITSTATUS(x) ((_W_INT(x) >> 8) & 0x000000ff)] *)
Definition WEXITSTATUS (x : Z) : Z := Z.land (Z.shiftr x 8) 0xff.
(** [#define WSTOPSIG(x) (_W_INT(x) >> 8)] *)
Definition WSTOPSIG (x : Z) : Z := Z.shiftr x 8.
(** [#define WIFCONTINUED(x) (_WSTATUS(x) == _WSTOPPED && WSTOPSIG(x) == 0x13)] *)
Definition WIFCONTINUED (x : Z) : Z :=
  Z.b2z ((WSTATUS x =? WSTOPPED) && (WSTOPSIG x =? 0x13)).
(** [#define WIFSTOPPED(x) (_WSTATUS(x) == _WSTOPPED && WSTOPSIG(x) != 0x13)] *)
Definition WIFSTOPPED (x : Z) : Z :=
  Z.b2z ((WSTATUS x =? WSTOPPED) && negb (WSTOPSIG x =? 0x13)).
(** [#define WIFEXITED(x) (_WSTATUS(x) == 0)] *)
Definition WIFEXITED (x : Z) : Z := Z.b2z (WSTATUS x =? 0).
(** [#define WIFSIGNALED(x) (_WSTATUS(x) != _WSTOPPED && _WSTATUS(x) != 0)] *)
Definition WIFSIGNALED (x : Z) : Z :=
  Z.b2z (negb (WSTATUS x =? WSTOPPED) && negb (WSTATUS x =? 0)).
(** [#define WTERMSIG(x) (_WSTATUS(x))] *)
Definition WTERMSIG (x : Z) : Z := WSTATUS x.
(** [#define WCOREDUMP(x) (_W_INT(x) & WCOREFLAG)], flag [0200] *)
Definition WCOREDUMP (x : Z) : Z := Z.land x 128.
End Xnu.

Definition WIFEXITED (p : platform) : Z -> Z :=
  match p with Linux => Glibc.WIFEXITED | Darwin => Xnu.WIFEXITED end.
Definition WEXITSTATUS (p : platform) : Z -> Z :=
  match p with Linux => Glibc.WEXITSTATUS | Darwin => Xnu.WEXITSTATUS end.
Definition WIFSIGNALED (p : platform) : Z -> Z :=
  match p with Linux => Glibc.WIFSIGNALED | Darwin => Xnu.WIFSIGNALED end.
Definition WTERMSIG (p : platform) : Z -> Z :=
  match p with Linux => Glibc.WTERMSIG | Darwin => Xnu.WTERMSIG end.
Definition WIFSTOPPED (p : platform) : Z -> Z :=
  match p with Linux => Glibc.WIFSTOPPED | Darwin => Xnu.WIFSTOPPED end.
Definition WSTOPSIG (p : platform) : Z -> Z :=
  match p with Linux => Glibc.WSTOPSIG | Darwin => Xnu.WSTOPSIG end.
Definition WIFCONTINUED (p : platform) : Z -> Z :=
  match p with Linux => Glibc.WIFCONTINUED | Darwin => Xnu.WIFCONTINUED end.
Definition WCOREDUMP (p : platform) : Z -> Z :=
  match p with Linux => Glibc.WCOREDUMP | Darwin => Xnu.WCOREDUMP end.

(** The status word the kernel hands to [wait] for a child that called
    [_exit(code)]: [W_EXITCODE(code, 0)], the same on both platforms. *)
Definition W_EXITCODE (code : Z) : Z := Z.shiftl (Z.land code 0xff) 8.

End WaitStatus.

(* ================================================================== *)
(** ** shim.h *)
(* ================================================================== *)

Section Shim.
Variable p : platform.

(** [static inline int swift_WIFEXITED(int status)] *)
Definition swift_WIFEXITED (status : Z) : Z := WaitStatus.WIFEXITED p status.
(** [static inline int swift_WEXITSTATUS(int status)] *)
Definition swift_WEXITSTATUS (status : Z) : Z := WaitStatus.WEXITSTATUS p status.
(** [static inline int swift_WIFSIGNALED(int status)] *)
Definition swift_WIFSIGNALED (status : Z) : Z := WaitStatus.WIFSIGNALED p status.
(** [static inline int swift_WTERMSIG(int status)] *)
Definition swift_WTERMSIG (status : Z) : Z := WaitStatus.WTERMSIG p status.
(** [static inline int swift_WIFSTOPPED(int status)] *)
Definition swift_WIFSTOPPED (status : Z) : Z := WaitStatus.WIFSTOPPED p status.
(** [static inline int swift_WSTOPSIG(int status)] *)
Definition swift_WSTOPSIG (status : Z) : Z := WaitStatus.WSTOPSIG p status.
(** [static inline int swift_WIFCONTINUED(int status)] *)
Definition swift_WIFCONTINUED (status : Z) : Z := WaitStatus.WIFCONTINUED p status.
(** [static inline int swift_WCOREDUMP(int status)] *)
Definition swift_WCOREDUMP (status : Z) : Z := WaitStatus.WCOREDUMP p status.

(** The four outcome predicates, in the order a decoder checks them. *)
Definition outcome_predicates (status : Z) : list Z :=
  [ swift_WIFEXITED status; swift_WIFSIGNALED status;
    swift_WIFSTOPPED status; swift_WIFCONTINUED status ].

(** How many of the four predicates return nonzero. *)
Definition holding (status : Z) : nat :=
  List.length (List.filter (fun r => negb (r =? 0)) (outcome_predicates status)).
End Shim.

(* ================================================================== *)
(** ** The C library the helper calls *)
(* ================================================================== *)

(** The newline character of the format strings. *)
Definition nl : string := String "010"%char "".

Module Libc.

(** [isspace] in the C locale. *)
Definition isspace (c : ascii) : bool :=
  let n := Z.of_nat (nat_of_ascii c) in (n =? 32) || ((9 <=? n) && (n <=? 13)).

Definition digit_of (c : ascii) : option Z :=
  let n := Z.of_nat (nat_of_ascii c) in
  if (48 <=? n) && (n <=? 57) then Some (n - 48) else None.

Fixpoint skip_space (s : string) : string :=
  match s with
  | String c r => if isspace c then skip_space r else s
  | EmptyString => s
  end.

(** The value of the longest prefix of decimal digits. *)
Fixpoint digits (acc : Z) (s : string) : Z :=
  match s with
  | String c r =>
      match digit_of c with
      | Some d => digits (10 * acc + d) r
      | None => acc
      end
  | EmptyString => acc
  end.

Definition LONG_MIN : Z := - 2 ^ 63.
Definition LONG_MAX : Z := 2 ^ 63 - 1.

(** [strtol(s, NULL, 10)]: white space, an optional sign, digits; the
    result saturates at the bounds of [long]. *)
Definition strtol10 (s : string) : Z :=
  let s := skip_space s in
  let v :=
    match s with
    | String "-" r => - digits 0 r
    | String "+" r => digits 0 r
    | _ => digits 0 s
    end in
  Z.max LONG_MIN (Z.min LONG_MAX v).

(** Conversion of a [long] to [int]: the low 32 bits, signed. *)
Definition to_int (x : Z) : Z := (x + 2 ^ 31) mod 2 ^ 32 - 2 ^ 31.

(** Modelled from the spec: [atoi] belongs to the C library, not to the
    repository; the spec only names its result, the numeric value of
    "<code>" and "<ppid>".  Both platforms define it as
    [(int) strtol(s, NULL, 10)]. *)
Definition atoi (s : string) : Z := to_int (strtol10 s).

(** What [printf] writes for a ["%d"] conversion. *)
Definition fmt_d (z : Z) : string := NilZero.string_of_int (Z.to_int z).

(** [errno] values and the stop signal, from [<errno.h>] and [<signal.h>]. *)
Definition EPERM : Z := 1.
Definition ESRCH : Z := 3.
Definition ECHILD : Z := 10.
Definition EINVAL : Z := 22.
Definition EAGAIN (p : platform) : Z := match p with Linux => 11 | Darwin => 35 end.
Definition SIGSTOP (p : platform) : Z := match p with Linux => 19 | Darwin => 17 end.

End Libc.

(* ================================================================== *)
(** ** Programs: the calls a process makes, in order *)
(* ================================================================== *)

(** System calls that return one [int]. *)
Inductive call : Type :=
| Getpid
| Getppid
| Getpgid (pid : Z)
| Getsid (pid : Z)
| Setsid
| Setpgid (pid pgid : Z)
| Raise (sig : Z).

(** A C function as the tree of its interactions.  [main.c] has no loop, so
    the tree is finite. [Ret] is [return]; [UExit] is [_exit], which never
    returns; the other nodes carry the rest of the function. *)
Inductive prog (R : Type) : Type :=
| Ret (r : R)
| UExit (code : Z)
| Sys (c : call) (k : Z -> prog R)
| Errno (k : Z -> prog R)
| Fork (k : Z -> prog R)
| Waitpid (pid options : Z) (k : Z -> Z -> prog R)
| Printf (s : string) (k : prog R)
| Fflush (k : prog R)
| Eprintf (s : string) (k : prog R).

Arguments Ret {R} r.
Arguments UExit {R} code.
Arguments Sys {R} c k.
Arguments Errno {R} k.
Arguments Fork {R} k.
Arguments Waitpid {R} pid options k.
Arguments Printf {R} s k.
Arguments Fflush {R} k.
Arguments Eprintf {R} s k.

Fixpoint bind {A B : Type} (m : prog A) (f : A -> prog B) : prog B :=
  match m with
  | Ret a => f a
  | UExit code => UExit code
  | Sys c k => Sys c (fun r => bind (k r) f)
  | Errno k => Errno (fun e => bind (k e) f)
  | Fork k => Fork (fun r => bind (k r) f)
  | Waitpid pid options k => Waitpid pid options (fun r st => bind (k r st) f)
  | Printf s k => Printf s (bind k f)
  | Fflush k => Fflush (bind k f)
  | Eprintf s k => Eprintf s (bind k f)
  end.

Declare Scope prog_scope.
Delimit Scope prog_scope with prog.
Notation "x <- m ;; f" := (bind m (fun x => f))
  (at level 61, m at next level, right associativity) : prog_scope.
Notation "m ;; f" := (bind m (fun _ => f))
  (at level 61, right associativity) : prog_scope.
Local Open Scope prog_scope.

Definition getpid : prog Z := Sys Getpid Ret.
Definition getppid : prog Z := Sys Getppid Ret.
Definition getpgid (pid : Z) : prog Z := Sys (Getpgid pid) Ret.
Definition getsid (pid : Z) : prog Z := Sys (Getsid pid) Ret.
Definition setsid : prog Z := Sys Setsid Ret.
Definition setpgid (pid pgid : Z) : prog Z := Sys (Setpgid pid pgid) Ret.
Definition raise (sig : Z) : prog Z := Sys (Raise sig) Ret.
Definition errno : prog Z := Errno Ret.
Definition fork : prog Z := Fork Ret.
(** [waitpid(pid, &status, options)]: the return value and [status]. *)
Definition waitpid (pid options : Z) : prog (Z * Z) :=
  Waitpid pid options (fun r st => Ret (r, st)).
Definition _exit {R : Type} (code : Z) : prog R := UExit code.
Definition printf (s : string) : prog unit := Printf s (Ret tt).
Definition fflush_stdout : prog unit := Fflush (Ret tt).
Definition fprintf_stderr (s : string) : prog unit := Eprintf s (Ret tt).

(* ================================================================== *)
(** ** main.c *)
(* ================================================================== *)

Section Helper.
Variable p : platform.

Import Libc.

(** [static void print_status(const char *status, int exit_code)] *)
Definition print_status (status : string) (exit_code : Z) : prog unit :=
  pid <- getpid ;;
  ppid <- getppid ;;
  pgid <- getpgid 0 ;;
  sid <- getsid 0 ;;
  printf (status +++ " pid=" +++ fmt_d pid +++ " ppid=" +++ fmt_d ppid
          +++ " pgid=" +++ fmt_d pgid +++ " sid=" +++ fmt_d sid
          +++ " exit=" +++ fmt_d exit_code +++ nl) ;;
  fflush_stdout.

(** [static void print_error(int err, const char *msg)] *)
Definition print_error (err : Z) (msg : string) : prog unit :=
  printf ("ERR errno=" +++ fmt_d err +++ " msg=" +++ msg +++ nl) ;;
  fflush_stdout.

(** The usage text of [argc < 2]. *)
Definition usage : prog unit :=
  fprintf_stderr ("Usage: posix-test-helper <command> [args...]" +++ nl) ;;
  fprintf_stderr ("Commands:" +++ nl) ;;
  fprintf_stderr ("  exit <code>           Exit with specified code" +++ nl) ;;
  fprintf_stderr ("  stop-exit <code>      SIGSTOP, then exit when continued" +++ nl) ;;
  fprintf_stderr ("  verify-parent <ppid>  Verify parent PID" +++ nl) ;;
  fprintf_stderr ("  create-session        Create new session (setsid)" +++ nl) ;;
  fprintf_stderr ("  double-setsid         setsid twice, verify EPERM" +++ nl) ;;
  fprintf_stderr ("  become-group-leader   setpgid(0,0)" +++ nl) ;;
  fprintf_stderr ("  setpgid-explicit      setpgid(pid, pid)" +++ nl) ;;
  fprintf_stderr ("  fork-exit <code>      Fork child that exits" +++ nl).

(** [int main(int argc, char *argv[])], with [argc] the length of [argv].
    [strcmp(cmd, "exit") == 0] is equality of strings. *)
Definition main (argv : list string) : prog Z :=
  let argc := Z.of_nat (List.length argv) in
  let arg (i : nat) := List.nth i argv "" in
  if argc <? 2 then
    usage ;; Ret 1
  else
  let cmd := arg 1%nat in
  (* exit <code> *)
  if (cmd =? "exit")%string then
    let code := if 3 <=? argc then atoi (arg 2%nat) else 0 in
    print_status "OK" code ;;
    Ret code
  else
  (* stop-exit <code> *)
  if (cmd =? "stop-exit")%string then
    let code := if 3 <=? argc then atoi (arg 2%nat) else 0 in
    raise (SIGSTOP p) ;;
    print_status "OK" code ;;
    Ret code
  else
  (* verify-parent <ppid> *)
  if (cmd =? "verify-parent")%string then
    if argc <? 3 then
      fprintf_stderr ("verify-parent requires <ppid> argument" +++ nl) ;;
      Ret 1
    else
    let expected := atoi (arg 2%nat) in
    actual <- getppid ;;
    let ok := actual =? expected in
    (if ok then
       print_status "OK" 0
     else
       printf ("ERR errno=0 msg=ppid_mismatch expected=" +++ fmt_d expected
               +++ " actual=" +++ fmt_d actual +++ nl) ;;
       fflush_stdout) ;;
    Ret (if ok then 0 else 1)
  else
  (* create-session *)
  if (cmd =? "create-session")%string then
    sid <- setsid ;;
    if 0 <? sid then
      print_status "OK" 0 ;;
      Ret 0
    else
      e <- errno ;;
      print_error e "setsid_failed" ;;
      Ret 1
  else
  (* double-setsid *)
  if (cmd =? "double-setsid")%string then
    first <- setsid ;;
    if first <=? 0 then
      e <- errno ;;
      print_error e "first_setsid_failed" ;;
      Ret 1
    else
    second <- setsid ;;
    second_failed_eperm <-
      (if second <? 0 then e <- errno ;; Ret (e =? EPERM) else Ret false) ;;
    if second_failed_eperm then
      print_status "OK" 0 ;;
      Ret 0
    else
      e <- errno ;;
      print_error e "second_setsid_should_fail_eperm" ;;
      Ret 1
  else
  (* become-group-leader *)
  if (cmd =? "become-group-leader")%string then
    r <- setpgid 0 0 ;;
    if negb (r =? 0) then
      e <- errno ;;
      print_error e "setpgid_failed" ;;
      Ret 1
    else
    pid <- getpid ;;
    pgid <- getpgid 0 ;;
    let ok := pgid =? pid in
    if ok then
      print_status "OK" 0 ;;
      Ret 0
    else
      printf ("ERR errno=0 msg=not_group_leader pid=" +++ fmt_d pid
              +++ " pgid=" +++ fmt_d pgid +++ nl) ;;
      fflush_stdout ;;
      Ret 1
  else
  (* setpgid-explicit *)
  if (cmd =? "setpgid-explicit")%string then
    pid <- getpid ;;
    r <- setpgid pid pid ;;
    if negb (r =? 0) then
      e <- errno ;;
      print_error e "setpgid_explicit_failed" ;;
      Ret 1
    else
    pgid <- getpgid pid ;;
    let ok := pgid =? pid in
    if ok then
      print_status "OK" 0 ;;
      Ret 0
    else
      printf ("ERR errno=0 msg=pgid_not_set pid=" +++ fmt_d pid
              +++ " pgid=" +++ fmt_d pgid +++ nl) ;;
      fflush_stdout ;;
      Ret 1
  else
  (* fork-exit <code> *)
  if (cmd =? "fork-exit")%string then
    let code := if 3 <=? argc then atoi (arg 2%nat) else 0 in
    child <- fork ;;
    if child <? 0 then
      e <- errno ;;
      print_error e "fork_failed" ;;
      Ret 1
    else
    if child =? 0 then
      _exit code
    else
    ws <- waitpid child 0 ;;
    let (waited, status) := ws : Z * Z in
    if negb (waited =? child) then
      e <- errno ;;
      print_error e "waitpid_failed" ;;
      Ret 1
    else
    let child_exit :=
      if negb (WaitStatus.WIFEXITED p status =? 0)
      then WaitStatus.WEXITSTATUS p status else -1 in
    pid <- getpid ;;
    printf ("OK pid=" +++ fmt_d pid +++ " child=" +++ fmt_d child
            +++ " child_exit=" +++ fmt_d child_exit +++ nl) ;;
    fflush_stdout ;;
    Ret 0
  else
  fprintf_stderr ("Unknown command: " +++ cmd +++ nl) ;;
  Ret 1.

(** The [fork-exit] branch of [main] for a given [code] (see [main_fork_exit]). *)
Definition fork_exit_body (code : Z) : prog Z :=
  child <- fork ;;
  if child <? 0 then
    e <- errno ;; print_error e "fork_failed" ;; Ret 1
  else if child =? 0 then _exit code
  else
    ws <- waitpid child 0 ;;
    let (waited, status) := ws : Z * Z in
    if negb (waited =? child) then
      e <- errno ;; print_error e "waitpid_failed" ;; Ret 1
    else
      let child_exit :=
        if negb (WaitStatus.WIFEXITED p status =? 0)
        then WaitStatus.WEXITSTATUS p status else -1 in
      pid <- getpid ;;
      printf ("OK pid=" +++ fmt_d pid +++ " child=" +++ fmt_d child
              +++ " child_exit=" +++ fmt_d child_exit +++ nl) ;;
      fflush_stdout ;;
      Ret 0.

(** The commands [main] compares [argv[1]] with. *)
Definition recognized (cmd : string) : bool :=
  List.existsb (String.eqb cmd)
    [ "exit"; "stop-exit"; "verify-parent"; "create-session"; "double-setsid";
      "become-group-leader"; "setpgid-explicit"; "fork-exit" ].
End Helper.

(* ================================================================== *)
(** ** Running a program against an operating system *)
(* ================================================================== *)

(** What [fork] does to the world [W] of the calling process: it fails, or
    a child with a positive pid starts in the world [wchild]; once the child
    has terminated with [code] in the world [w], the parent goes on in
    [join code w]. *)
Inductive fork_result (W : Type) : Type :=
| ForkFailed (w : W)
| Forked (child : positive) (wchild : W) (join : Z -> W -> W).

Arguments ForkFailed {W} w.
Arguments Forked {W} child wchild join.

(** An operating system over the state [W]: every call may answer anything
    and change the state in any way. [errno_of] reads the calling thread's
    [errno].  Every call returns: a process that a signal kills on the way
    has no run here. *)
Record os (W : Type) : Type := mkOs {
  sys : call -> W -> Z * W;
  errno_of : W -> Z;
  sys_fork : W -> fork_result W;
  sys_wait : Z -> Z -> W -> Z * Z * W
}.

Arguments sys {W}.
Arguments errno_of {W}.
Arguments sys_fork {W}.
Arguments sys_wait {W}.

(** A process: its view of the system, the [stdio] buffer of standard
    output, and what has reached standard output and standard error. *)
Record process (W : Type) : Type := mkProcess {
  kern : W;
  buffered : string;
  stdout : string;
  stderr : string
}.

Arguments mkProcess {W} kern buffered stdout stderr.
Arguments kern {W}.
Arguments buffered {W}.
Arguments stdout {W}.
Arguments stderr {W}.

Section Exec.
Context {W : Type}.
Variable h : os W.

Definition with_kern (s : process W) (w : W) : process W :=
  mkProcess w (buffered s) (stdout s) (stderr s).

(** [fflush(stdout)], also what [exit] does on return from [main]. *)
Definition flush (s : process W) : process W :=
  mkProcess (kern s) "" (stdout s +++ buffered s) (stderr s).

(** The run of a whole program: its exit code and the final state of the
    process.  At [fork] the child runs the rest of the program with the
    return value 0 and a copy of the buffer, writing to the same
    descriptors; the parent resumes after the child has terminated. *)
Fixpoint exec (m : prog Z) (s : process W) : Z * process W :=
  match m with
  | Ret r => (r, flush s)
  | UExit code => (code, s)
  | Sys c k =>
      let (r, w) := sys h c (kern s) in exec (k r) (with_kern s w)
  | Errno k => exec (k (errno_of h (kern s))) s
  | Fork k =>
      match sys_fork h (kern s) with
      | ForkFailed w => exec (k (-1)) (with_kern s w)
      | Forked child wchild join =>
          let (code, sc) := exec (k 0) (with_kern s wchild) in
          exec (k (Z.pos child))
            (mkProcess (join code (kern sc)) (buffered s) (stdout sc) (stderr sc))
      end
  | Waitpid pid options k =>
      let '(r, status, w) := sys_wait h pid options (kern s) in
      exec (k r status) (with_kern s w)
  | Printf str k =>
      exec k (mkProcess (kern s) (buffered s +++ str) (stdout s) (stderr s))
  | Fflush k => exec k (flush s)
  | Eprintf str k =>
      exec k (mkProcess (kern s) (buffered s) (stdout s) (stderr s +++ str))
  end.

(** A freshly started process. *)
Definition start (w : W) : process W := mkProcess w "" "" "".

(** One invocation of the helper. *)
Definition invoke (p : platform) (argv : list string) (w : W) : Z * process W :=
  exec (main p argv) (start w).

(** The exit status is what [main] returns or [_exit] receives; [wait]
    in the parent reports its low eight bits ([W_EXITCODE]). *)
Definition exit_status (r : Z * process W) : Z := fst r.
Definition output (r : Z * process W) : string := stdout (snd r).
Definition errors (r : Z * process W) : string := stderr (snd r).
End Exec.

(* ================================================================== *)
(** ** The line protocol *)
(* ================================================================== *)

Module Protocol.

Definition is_nl (c : ascii) : bool := Ascii.eqb c "010"%char.

(** The lines of a text; a trailing piece without newline counts as one. *)
Fixpoint lines (s : string) : list string :=
  match s with
  | EmptyString => []
  | String c r =>
      if is_nl c then "" :: lines r
      else match lines r with
           | l :: ls => String c l :: ls
           | [] => [String c ""]
           end
  end.

(** The space-separated tokens of a line, up to its newline. *)
Fixpoint tokens (s : string) : list string :=
  match s with
  | EmptyString => [""]
  | String c r =>
      if is_nl c then [""]
      else if Ascii.eqb c " "%char then "" :: tokens r
      else match tokens r with
           | t :: ts => String c t :: ts
           | [] => [String c ""]
           end
  end.

(** [key=value], split at the first ['=']. *)
Fixpoint key_value (tok : string) : option (string * string) :=
  match tok with
  | EmptyString => None
  | String c r =>
      if Ascii.eqb c "="%char then Some ("", r)
      else match key_value r with
           | Some (k, v) => Some (String c k, v)
           | None => None
           end
  end.

Fixpoint lookup (key : string) (kvs : list (option (string * string)))
  : option string :=
  match kvs with
  | [] => None
  | Some (k, v) :: rest => if (k =? key)%string then Some v else lookup key rest
  | None :: rest => lookup key rest
  end.

(** The value of the field [key] of a protocol line, if the line has it. *)
Definition field (key : string) (line : string) : option string :=
  lookup key (List.map key_value (tokens line)).

(** The leading word of a line: [OK] or [ERR]. *)
Definition tag (line : string) : string := List.hd "" (tokens line).

Definition is_ok_line (line : string) : bool := (tag line =? "OK")%string.
Definition is_err_line (line : string) : bool := (tag line =? "ERR")%string.

(** [<tag> pid=<int> ppid=<int> pgid=<int> sid=<int> exit=<int>], the line
    of [print_status] without its newline. *)
Definition status_line (tag : string) (pid ppid pgid sid exit_code : Z) : string :=
  tag +++ " pid=" +++ Libc.fmt_d pid +++ " ppid=" +++ Libc.fmt_d ppid
  +++ " pgid=" +++ Libc.fmt_d pgid +++ " sid=" +++ Libc.fmt_d sid
  +++ " exit=" +++ Libc.fmt_d exit_code.

(** [ERR errno=<int> msg=<token>], the line of [print_error]. *)
Definition error_line (err : Z) (msg : string) : string :=
  "ERR errno=" +++ Libc.fmt_d err +++ " msg=" +++ msg.

(** A character that ends neither a token nor a line. *)
Definition plain_char (c : ascii) : bool :=
  negb (is_nl c) && negb (Ascii.eqb c " "%char).

Fixpoint plain (s : string) : bool :=
  match s with
  | EmptyString => true
  | String c r => plain_char c && plain r
  end.

Fixpoint no_nl (s : string) : bool :=
  match s with
  | EmptyString => true
  | String c r => negb (is_nl c) && no_nl r
  end.

(** The text is one line: a newline ends it and occurs nowhere else. *)
Fixpoint one_line (s : string) : bool :=
  match s with
  | EmptyString => false
  | String c r => if is_nl c then (r =? "")%string else one_line r
  end.

End Protocol.

Section Report.
Context {W : Type}.
Variable h : os W.

(** The four queries of [print_status], in its order. *)
Definition query_identity (w : W) : (Z * Z * Z * Z) * W :=
  let (pid, w1) := sys h Getpid w in
  let (ppid, w2) := sys h Getppid w1 in
  let (pgid, w3) := sys h (Getpgid 0) w2 in
  let (sid, w4) := sys h (Getsid 0) w3 in
  ((pid, ppid, pgid, sid), w4).

(** The line [print_status(tag, exit_code)] writes in the world [w]. *)
Definition report (w : W) (tag : string) (exit_code : Z) : string :=
  let '(pid, ppid, pgid, sid) := fst (query_identity w) in
  Protocol.status_line tag pid ppid pgid sid exit_code.

(** Standard output carries exactly the one line [l], newline included. *)
Definition prints_line (r : Z * process W) (l : string) : Prop :=
  output r = l +++ nl /\ Protocol.lines (output r) = [l].

(** Standard output carries exactly one line, an [OK] line. *)
Definition prints_ok (r : Z * process W) : Prop :=
  exists l, prints_line r l /\ Protocol.is_ok_line l = true.

(** Standard output carries exactly one line, an [ERR] line. *)
Definition prints_err (r : Z * process W) : Prop :=
  exists l, prints_line r l /\ Protocol.is_err_line l = true.
End Report.

(* ================================================================== *)
(** ** A POSIX process, as the kernel sees it *)
(* ================================================================== *)

(** Modelled from the spec: the system calls are the kernel's, not code of
    the repository.  Their rules here are the ones the spec gives for
    [ProcessController] and [WaitReaper], for one process and the children
    it forks. *)
Module Posix.

Import Libc.

(** The identity of the calling process ([GroupIdentity] and the parent),
    its [errno], and what [fork] and [waitpid] need: the distance to the
    next free pid, the process slots left, the terminated children not yet
    reaped with their status words (newest first), how often the process
    was stopped and continued, and the signal, if any, that terminates the
    next child before its exit takes effect. *)
Record kernel : Type := mkKernel {
  k_pid : positive;
  k_ppid : Z;
  k_pgid : positive;
  k_sid : positive;
  k_errno : Z;
  k_gap : positive;
  k_slots : nat;
  k_zombies : list (positive * Z);
  k_stops : nat;
  k_fate : option Z
}.

Definition fail (w : kernel) (e : Z) : Z * kernel :=
  (-1, mkKernel (k_pid w) (k_ppid w) (k_pgid w) (k_sid w) e
         (k_gap w) (k_slots w) (k_zombies w) (k_stops w) (k_fate w)).

Definition is_self (w : kernel) (pid : Z) : bool :=
  (pid =? 0) || (pid =? Z.pos (k_pid w)).

Definition is_group_leader (w : kernel) : bool := (k_pgid w =? k_pid w)%positive.
Definition is_session_leader (w : kernel) : bool := (k_sid w =? k_pid w)%positive.

(** Modelled from the spec: [setsid] is a system call, not code of the
    repository. "createSession ... fails with AlreadyGroupLeader ... when
    the target is already a process-group leader"; on success the caller
    leads the new session and its group ("the group leader's pid equals its
    processGroupId; the session leader's pid equals its sessionId"). *)
Definition do_setsid (w : kernel) : Z * kernel :=
  if is_group_leader w then fail w EPERM
  else (Z.pos (k_pid w),
        mkKernel (k_pid w) (k_ppid w) (k_pid w) (k_pid w) (k_errno w)
          (k_gap w) (k_slots w) (k_zombies w) (k_stops w) (k_fate w)).

(** Modelled from the spec: [setpgid] is a system call, not code of the
    repository. "setProcessGroup(handle, targetGroup): when targetGroup ==
    handle, makes the target its own group leader ... Fails with
    PermissionDenied ... if the target is already a session leader."  Zero
    stands for the caller; only the caller's own groups are known here. *)
Definition do_setpgid (w : kernel) (pid pgid : Z) : Z * kernel :=
  if pgid <? 0 then fail w EINVAL
  else
    let target := if pid =? 0 then Z.pos (k_pid w) else pid in
    let group := if pgid =? 0 then target else pgid in
    if negb (target =? Z.pos (k_pid w)) then fail w ESRCH
    else if is_session_leader w then fail w EPERM
    else if group =? Z.pos (k_pid w) then
      (0, mkKernel (k_pid w) (k_ppid w) (k_pid w) (k_sid w) (k_errno w)
            (k_gap w) (k_slots w) (k_zombies w) (k_stops w) (k_fate w))
    else if group =? Z.pos (k_pgid w) then (0, w)
    else fail w EPERM.

(** [raise(SIGSTOP)] suspends the process; the call returns 0 once the
    parent has sent [SIGCONT].  Other signals are outside this model. *)
Definition do_raise (p : platform) (w : kernel) (sig : Z) : Z * kernel :=
  if sig =? SIGSTOP p then
    (0, mkKernel (k_pid w) (k_ppid w) (k_pgid w) (k_sid w) (k_errno w)
          (k_gap w) (k_slots w) (k_zombies w) (S (k_stops w)) (k_fate w))
  else fail w EINVAL.

Definition do_call (p : platform) (c : call) (w : kernel) : Z * kernel :=
  match c with
  | Getpid => (Z.pos (k_pid w), w)
  | Getppid => (k_ppid w, w)
  | Getpgid pid => if is_self w pid then (Z.pos (k_pgid w), w) else fail w ESRCH
  | Getsid pid => if is_self w pid then (Z.pos (k_sid w), w) else fail w ESRCH
  | Setsid => do_setsid w
  | Setpgid pid pgid => do_setpgid w pid pgid
  | Raise sig => do_raise p w sig
  end.

(** The status word of a child that called [_exit(code)], unless a signal
    terminated it first. *)
Definition child_status (fate : option Z) (code : Z) : Z :=
  match fate with
  | Some sig => Z.land sig 0x7f
  | None => WaitStatus.W_EXITCODE code
  end.

(** [fork]: with no slot left it fails with [EAGAIN]; otherwise the child
    gets a fresh pid, the caller as parent and the caller's group and
    session, and when it has terminated it stays as a zombie of the caller
    with its status word. *)
Definition do_fork (p : platform) (w : kernel) : fork_result kernel :=
  match k_slots w with
  | O => ForkFailed (snd (fail w (EAGAIN p)))
  | S slots =>
      let child := (k_pid w + k_gap w)%positive in
      Forked child
        (mkKernel child (Z.pos (k_pid w)) (k_pgid w) (k_sid w) (k_errno w)
           1 slots [] 0 None)
        (fun code _ =>
           mkKernel (k_pid w) (k_ppid w) (k_pgid w) (k_sid w) (k_errno w)
             (Pos.succ (k_gap w)) slots
             ((child, child_status (k_fate w) code) :: k_zombies w)
             (k_stops w) None)
  end.

(** The first zombie [waitpid(pid, ...)] selects ([-1] and [0]: any child),
    and the zombies that remain. *)
Fixpoint reap (pid : Z) (zs : list (positive * Z))
  : option (positive * Z * list (positive * Z)) :=
  match zs with
  | [] => None
  | (c, st) :: rest =>
      if (pid =? -1) || (pid =? 0) || (pid =? Z.pos c) then Some (c, st, rest)
      else match reap pid rest with
           | Some (c', st', rest') => Some (c', st', (c, st) :: rest')
           | None => None
           end
  end.

(** [waitpid]: reaps a terminated child, or fails with [ECHILD]; on failure
    the status word is left as it was (here 0). *)
Definition do_wait (w : kernel) (pid options : Z) : Z * Z * kernel :=
  match reap pid (k_zombies w) with
  | Some (c, st, rest) =>
      (Z.pos c, st,
       mkKernel (k_pid w) (k_ppid w) (k_pgid w) (k_sid w) (k_errno w)
         (k_gap w) (k_slots w) rest (k_stops w) (k_fate w))
  | None => (-1, 0, snd (fail w ECHILD))
  end.

(** A process in the middle of a session: pid 100, parent 50, group and
    session 60, with room for four children. *)
Definition member : kernel := mkKernel 100 50 60 60 0 1 4 [] 0 None.

(** The same process when it leads its session and its group. *)
Definition leader : kernel := mkKernel 100 50 100 100 0 1 4 [] 0 None.

(** The same process when [SIGKILL] is about to hit its next child. *)
Definition doomed : kernel := mkKernel 100 50 60 60 0 1 4 [] 0 (Some 9).

Definition posix (p : platform) : os kernel :=
  mkOs kernel (do_call p) k_errno (do_fork p) (fun pid options w => do_wait w pid options).

End Posix.

(* ================================================================== *)
(** ** Observing the calls of a run *)
(* ================================================================== *)

(** What a process asked of the system: a call and its answer, a [fork]
    that failed, a [fork] that gave a child together with everything the
    child asked and the code it terminated with, a [waitpid] with the
    answer and the status word. *)
#[local] Unset Elimination Schemes.
Inductive event : Type :=
| Called (c : call) (ret : Z)
| ForkFailure
| ForkChild (child : positive) (child_events : list event) (child_code : Z)
| Waited (pid options ret status : Z).
#[local] Set Elimination Schemes.

(** The operating system [h] with a log: it answers as [h] does and writes
    down every call, oldest first. *)
Definition traced {W : Type} (h : os W) : os (W * list event) :=
  mkOs (W * list event)
    (fun c wt =>
       let (r, w') := sys h c (fst wt) in (r, (w', snd wt ++ [Called c r])))
    (fun wt => errno_of h (fst wt))
    (fun wt =>
       match sys_fork h (fst wt) with
       | ForkFailed w' => ForkFailed (w', snd wt ++ [ForkFailure])
       | Forked child wchild join =>
           Forked child (wchild, [])
             (fun code ct => (join code (fst ct),
                              snd wt ++ [ForkChild child (snd ct) code]))
       end)
    (fun pid options wt =>
       let '(r, status, w') := sys_wait h pid options (fst wt) in
       (r, status, (w', snd wt ++ [Waited pid options r status]))).

(** The calls of one invocation of the helper. *)
Definition calls {W : Type} (h : os W) (p : platform) (argv : list string) (w : W)
  : list event :=
  snd (kern (snd (invoke (traced h) p argv (w, [])))).

(** Calls that change the session or the process group of the caller. *)
Definition changes_identity (c : call) : bool :=
  match c with
  | Setsid | Setpgid _ _ => true
  | _ => false
  end.

(** The first word of a line of the usage text. *)
Definition first_word (line : string) : string :=
  List.hd "" (List.filter (fun t => negb (t =? "")%string) (Protocol.tokens line)).

(** A process of the logging system without its log. *)
Definition erase {W : Type} (s : process (W * list event)) : process W :=
  mkProcess (fst (kern s)) (buffered s) (stdout s) (stderr s).

(** The POSIX model with a [waitpid] that a signal interrupts: it returns
    -1 with [errno] set to [EINTR] (4) and reaps nothing. *)
Definition interrupted (p : platform) : os Posix.kernel :=
  mkOs Posix.kernel (Posix.do_call p) Posix.k_errno (Posix.do_fork p)
    (fun _ _ w => (-1, 0, snd (Posix.fail w 4))).

(** The process [Posix.member] when the system has no process slot left. *)
Definition crowded : Posix.kernel :=
  Posix.mkKernel 100 50 60 60 0 1 0 [] 0 None.

(* ================================================================== *)
(** ** The status words a wait call produces *)
(* ================================================================== *)

(** Modelled from the spec: the status word is written by the kernel, not
    by code of the repository.  "ExecutionOutcome: tagged union over
    {Exited(code), Signaled(signal, coreDumped), Stopped(signal),
    Continued}"; the words are the ones [W_EXITCODE], [W_STOPCODE] and the
    core flag of [<sys/wait.h>] build, and the continue word of each
    platform. *)
Module WaitWord.

Inductive outcome : Type :=
| Exited (code : Z)
| Signaled (sig : Z) (core : bool)
| Stopped (sig : Z)
| Continued.

(** The highest signal number: [_NSIG] is 64 on Linux, [NSIG - 1] is 31 on
    Darwin. *)
Definition last_signal (p : platform) : Z :=
  match p with Linux => 64 | Darwin => 31 end.

Definition is_signal (p : platform) (sig : Z) : bool :=
  (1 <=? sig) && (sig <=? last_signal p).

(** [W_STOPCODE(sig)]: [(sig << 8) | 0x7f]. *)
Definition W_STOPCODE (sig : Z) : Z := Z.lor (Z.shiftl sig 8) 0x7f.

(** The word of a continued child: [__W_CONTINUED] on Linux,
    [W_STOPCODE(SIGCONT)] with [SIGCONT] 19 on Darwin. *)
Definition continued_word (p : platform) : Z :=
  match p with
  | Linux => WaitStatus.Glibc.W_CONTINUED
  | Darwin => W_STOPCODE 19
  end.

Definition encode (p : platform) (o : outcome) : Z :=
  match o with
  | Exited code => WaitStatus.W_EXITCODE code
  | Signaled sig core => Z.lor sig (if core then 0x80 else 0)
  | Stopped sig => W_STOPCODE sig
  | Continued => continued_word p
  end.

(** The outcomes a kernel reports: any exit code, a real signal for a
    termination, and for a stop a real signal other than the one whose word
    means continued. *)
Definition reported (p : platform) (o : outcome) : bool :=
  match o with
  | Exited _ => true
  | Signaled sig _ => is_signal p sig
  | Stopped sig => is_signal p sig && negb (W_STOPCODE sig =? continued_word p)
  | Continued => true
  end.

(** What the wrappers make of the word of a termination by signal. *)
Definition signaled_ok (p : platform) (sig : Z) (core : bool) : Prop :=
  let status := encode p (Signaled sig core) in
  holding p status = 1%nat
  /\ swift_WIFSIGNALED p status <> 0
  /\ swift_WTERMSIG p status = sig
  /\ (swift_WCOREDUMP p status <> 0 <-> core = true).

(** What the wrappers make of the word of a stop. *)
Definition stopped_ok (p : platform) (sig : Z) : Prop :=
  let status := encode p (Stopped sig) in
  W_STOPCODE sig <> continued_word p ->
  holding p status = 1%nat
  /\ swift_WIFSTOPPED p status <> 0
  /\ swift_WSTOPSIG p status = sig.

End WaitWord.

(** Modelled from the spec: the exit status of a process is kept by the
    kernel, not by code of the repository.  "Exited(code: small integer,
    0–255)": of the [int] that [main] returns or [_exit] receives, the
    process's own exit status is the low eight bits, [status & 0377]. *)
Definition process_exit_status {W : Type} (r : Z * process W) : Z :=
  Z.land (exit_status r) 0xff.
(* ================================================================== *)
(** ** Facts about the wait-status macros *)
(* ================================================================== *)

Lemma land_low_bits (x : Z) (n : Z) :
  0 <= n -> Z.land x (Z.ones n) = x mod 2 ^ n.
Proof. intros Hn. apply Z.land_ones; exact Hn. Qed.

Lemma land_127 (x : Z) : Z.land x 127 = x mod 128.
Proof. exact (land_low_bits x 7 ltac:(lia)). Qed.

Lemma land_255 (x : Z) : Z.land x 255 = x mod 256.
Proof. exact (land_low_bits x 8 ltac:(lia)). Qed.

Lemma glibc_exitstatus_byte (s : Z) :
  WaitStatus.Glibc.WEXITSTATUS s = (s / 256) mod 256.
Proof.
  unfold WaitStatus.Glibc.WEXITSTATUS.
  change 0xff00 with (Z.shiftl 255 8).
  rewrite Z.shiftr_land, Z.shiftr_shiftl_l by lia.
  rewrite Z.sub_diag, Z.shiftl_0_r, land_255.
  rewrite Z.shiftr_div_pow2 by lia. reflexivity.
Qed.

Lemma xnu_exitstatus_byte (s : Z) :
  WaitStatus.Xnu.WEXITSTATUS s = (s / 256) mod 256.
Proof.
  unfold WaitStatus.Xnu.WEXITSTATUS.
  rewrite land_255, Z.shiftr_div_pow2 by lia. reflexivity.
Qed.

Lemma WEXITSTATUS_byte (p : platform) (s : Z) :
  WaitStatus.WEXITSTATUS p s = (s / 256) mod 256.
Proof. destruct p; [apply glibc_exitstatus_byte | apply xnu_exitstatus_byte]. Qed.

(** C6: on both platforms [swift_WEXITSTATUS] lies in 0..255 for every
    status word, whatever its other bits. *)
Theorem swift_WEXITSTATUS_range (p : platform) (status : Z) :
  0 <= swift_WEXITSTATUS p status <= 255.
Proof.
  unfold swift_WEXITSTATUS. rewrite WEXITSTATUS_byte.
  pose proof (Z.mod_pos_bound (status / 256) 256 ltac:(lia)). lia.
Qed.

(** [wait] sees the low eight bits of what a process hands to [exit]: the
    status word of a normal exit decodes as exited, with that byte. *)
Lemma W_EXITCODE_decodes (p : platform) (code : Z) :
  swift_WIFEXITED p (WaitStatus.W_EXITCODE code) = 1
  /\ swift_WEXITSTATUS p (WaitStatus.W_EXITCODE code) = code mod 256.
Proof.
  assert (E : WaitStatus.W_EXITCODE code = code mod 256 * 256).
  { unfold WaitStatus.W_EXITCODE. rewrite land_255, Z.shiftl_mul_pow2 by lia.
    reflexivity. }
  pose proof (Z.mod_pos_bound code 256 ltac:(lia)) as B.
  split.
  - unfold swift_WIFEXITED. rewrite E.
    assert (T : Z.land (code mod 256 * 256) 127 = 0).
    { rewrite land_127. Z.div_mod_to_equations. lia. }
    destruct p; cbn [WaitStatus.WIFEXITED];
      unfold WaitStatus.Glibc.WIFEXITED, WaitStatus.Glibc.WTERMSIG,
        WaitStatus.Xnu.WIFEXITED, WaitStatus.Xnu.WSTATUS;
      rewrite T; reflexivity.
  - unfold swift_WEXITSTATUS. rewrite WEXITSTATUS_byte, E.
    Z.div_mod_to_equations. lia.
Qed.

(** The low seven bits decide which glibc predicate can hold. *)
Lemma glibc_predicates (s : Z) :
  let t := s mod 128 in
  WaitStatus.Glibc.WIFEXITED s = Z.b2z (t =? 0)
  /\ WaitStatus.Glibc.WIFSIGNALED s = Z.b2z ((1 <=? t) && (t <=? 126))
  /\ WaitStatus.Glibc.WIFSTOPPED s = Z.b2z (s mod 256 =? 127).
Proof.
  cbv zeta.
  unfold WaitStatus.Glibc.WIFEXITED, WaitStatus.Glibc.WIFSIGNALED,
    WaitStatus.Glibc.WIFSTOPPED, WaitStatus.Glibc.WTERMSIG,
    WaitStatus.signed_char.
  rewrite land_127, land_255, Z.shiftr_div_pow2 by lia.
  change (2 ^ 1) with 2.
  pose proof (Z.mod_pos_bound s 128 ltac:(lia)) as Ht.
  repeat split; f_equal.
  generalize (s mod 128) Ht; clear; intros t Ht.
  destruct (Z.ltb_spec 0 (((t + 1 + 128) mod 256 - 128) / 2)) as [H|H];
    destruct (Z.leb_spec 1 t); destruct (Z.leb_spec t 126);
    cbn [andb]; try reflexivity; exfalso;
    revert H; Z.div_mod_to_equations; lia.
Qed.

Lemma holding_unfold (p : platform) (s : Z) :
  holding p s =
  (Nat.b2n (negb (swift_WIFEXITED p s =? 0)%Z)
   + Nat.b2n (negb (swift_WIFSIGNALED p s =? 0)%Z)
   + Nat.b2n (negb (swift_WIFSTOPPED p s =? 0)%Z)
   + Nat.b2n (negb (swift_WIFCONTINUED p s =? 0)%Z))%nat.
Proof.
  unfold holding, outcome_predicates. cbn [filter].
  destruct (negb (swift_WIFEXITED p s =? 0)),
           (negb (swift_WIFSIGNALED p s =? 0)),
           (negb (swift_WIFSTOPPED p s =? 0)),
           (negb (swift_WIFCONTINUED p s =? 0)); reflexivity.
Qed.

Lemma b2z_nonzero (b : bool) : negb (Z.b2z b =? 0) = b.
Proof. destruct b; reflexivity. Qed.

Lemma holding_linux (s : Z) :
  holding Linux s =
  if (Z.land s 0xff =? 0xff) && negb (s =? 0xffff) then 0%nat else 1%nat.
Proof.
  rewrite holding_unfold.
  unfold swift_WIFEXITED, swift_WIFSIGNALED, swift_WIFSTOPPED,
    swift_WIFCONTINUED, WaitStatus.WIFEXITED, WaitStatus.WIFSIGNALED,
    WaitStatus.WIFSTOPPED, WaitStatus.WIFCONTINUED.
  destruct (glibc_predicates s) as (-> & -> & ->).
  unfold WaitStatus.Glibc.WIFCONTINUED, WaitStatus.Glibc.W_CONTINUED.
  rewrite !b2z_nonzero, land_255.
  destruct (Z.eqb_spec (s mod 128) 0), (Z.leb_spec 1 (s mod 128)),
    (Z.leb_spec (s mod 128) 126), (Z.eqb_spec (s mod 256) 127),
    (Z.eqb_spec s 0xffff), (Z.eqb_spec (s mod 256) 0xff);
    cbn [andb negb Nat.b2n Nat.add]; try reflexivity; exfalso;
    Z.div_mod_to_equations; lia.
Qed.

Lemma holding_darwin (s : Z) : holding Darwin s = 1%nat.
Proof.
  rewrite holding_unfold.
  unfold swift_WIFEXITED, swift_WIFSIGNALED, swift_WIFSTOPPED,
    swift_WIFCONTINUED, WaitStatus.WIFEXITED, WaitStatus.WIFSIGNALED,
    WaitStatus.WIFSTOPPED, WaitStatus.WIFCONTINUED,
    WaitStatus.Xnu.WIFEXITED, WaitStatus.Xnu.WIFSIGNALED,
    WaitStatus.Xnu.WIFSTOPPED, WaitStatus.Xnu.WIFCONTINUED,
    WaitStatus.Xnu.WSTOPPED.
  rewrite !b2z_nonzero.
  destruct (Z.eqb_spec (WaitStatus.Xnu.WSTATUS s) 0) as [E|E],
    (Z.eqb_spec (WaitStatus.Xnu.WSTATUS s) 127) as [F|F],
    (WaitStatus.Xnu.WSTOPSIG s =? 19);
    cbn [andb negb Nat.b2n Nat.add]; try reflexivity; exfalso; lia.
Qed.

(** For an arbitrary integer at most one predicate answers: the word
    matches exactly one, or, on Linux when its low byte is [0xff] and it is
    not [0xffff], none. *)
Lemma holding_le_one (p : platform) (status : Z) : (holding p status <= 1)%nat.
Proof.
  destruct p.
  - rewrite holding_linux.
    destruct ((Z.land status 0xff =? 0xff) && negb (status =? 0xffff)); lia.
  - rewrite holding_darwin. lia.
Qed.

(** Induction over a range of integers, one value at a time. *)
Lemma range_cases (P : Z -> Prop) (lo : Z) (n : nat) :
  (forall k : nat, (k < n)%nat -> P (lo + Z.of_nat k)) ->
  forall z : Z, lo <= z < lo + Z.of_nat n -> P z.
Proof.
  intros H z R. replace z with (lo + Z.of_nat (Z.to_nat (z - lo))) by lia.
  apply H. lia.
Qed.

Ltac signal_case :=
  vm_compute; repeat split; intros; try reflexivity; try discriminate;
  try contradiction;
  try (match goal with H : _ -> False |- _ => exfalso; apply H; reflexivity end).

Ltac each_signal :=
  let k := fresh "k" in
  let Hk := fresh "Hk" in
  intros k Hk;
  repeat (destruct k as [|k]; [signal_case|try (exfalso; lia)]).

Import WaitWord.

Lemma exit_word (p : platform) (code : Z) :
  holding p (encode p (Exited code)) = 1%nat.
Proof.
  cbn [encode]. destruct p; [|apply holding_darwin]. rewrite holding_linux.
  replace (Z.land (WaitStatus.W_EXITCODE code) 255 =? 255) with false;
    [reflexivity|].
  symmetry. apply Z.eqb_neq. unfold WaitStatus.W_EXITCODE.
  rewrite !land_255, Z.shiftl_mul_pow2 by lia.
  pose proof (Z.mod_pos_bound code 256 ltac:(lia)).
  Z.div_mod_to_equations. lia.
Qed.

Lemma signaled_word (p : platform) (sig : Z) (core : bool) :
  is_signal p sig = true -> signaled_ok p sig core.
Proof.
  unfold is_signal. intros H. apply andb_true_iff in H as [L U].
  apply Z.leb_le in L, U. revert sig L U.
  destruct p, core; cbn [last_signal]; intros sig L U.
  - apply (range_cases (fun s => signaled_ok Linux s true) 1 64); [each_signal|lia].
  - apply (range_cases (fun s => signaled_ok Linux s false) 1 64); [each_signal|lia].
  - apply (range_cases (fun s => signaled_ok Darwin s true) 1 31); [each_signal|lia].
  - apply (range_cases (fun s => signaled_ok Darwin s false) 1 31); [each_signal|lia].
Qed.

Lemma stopped_word (p : platform) (sig : Z) :
  is_signal p sig = true -> stopped_ok p sig.
Proof.
  unfold is_signal. intros H. apply andb_true_iff in H as [L U].
  apply Z.leb_le in L, U. revert sig L U.
  destruct p; cbn [last_signal]; intros sig L U.
  - apply (range_cases (stopped_ok Linux) 1 64); [each_signal|lia].
  - apply (range_cases (stopped_ok Darwin) 1 31); [each_signal|lia].
Qed.

(** C1: for every status word a wait call produces (the word of an exit
    with any code, of a termination by a signal with or without core dump,
    of a stop, of a continue) exactly one of [swift_WIFEXITED],
    [swift_WIFSIGNALED], [swift_WIFSTOPPED], [swift_WIFCONTINUED] returns
    nonzero, and it is the one of the outcome, with the outcome's data; for
    any integer whatsoever no two of them do. *)
Theorem wait_words_have_exactly_one_outcome (p : platform) (o : outcome) :
  reported p o = true ->
  let status := encode p o in
  holding p status = 1%nat
  /\ (forall s : Z, (holding p s <= 1)%nat)
  /\ match o with
     | Exited code =>
         swift_WIFEXITED p status <> 0
         /\ swift_WEXITSTATUS p status = code mod 256
     | Signaled sig core =>
         swift_WIFSIGNALED p status <> 0
         /\ swift_WTERMSIG p status = sig
         /\ (swift_WCOREDUMP p status <> 0 <-> core = true)
     | Stopped sig =>
         swift_WIFSTOPPED p status <> 0 /\ swift_WSTOPSIG p status = sig
     | Continued => swift_WIFCONTINUED p status <> 0
     end.
Proof.
  intros R. cbv zeta.
  assert (M : forall s : Z, (holding p s <= 1)%nat) by apply holding_le_one.
  destruct o as [code|sig core|sig|]; cbn [reported] in R.
  - split; [apply exit_word|]. split; [exact M|].
    cbn [encode]. destruct (W_EXITCODE_decodes p code) as [E S].
    rewrite E, S. split; [discriminate|reflexivity].
  - destruct (signaled_word p sig core R) as (H & rest). split; [exact H|].
    split; [exact M|exact rest].
  - apply andb_true_iff in R as [S N]. apply negb_true_iff, Z.eqb_neq in N.
    destruct (stopped_word p sig S N) as (H & rest). split; [exact H|].
    split; [exact M|exact rest].
  - split; [destruct p; reflexivity|]. split; [exact M|].
    destruct p; vm_compute; discriminate.
Qed.

(* ================================================================== *)
(** ** Facts about the C library model and the protocol text *)
(* ================================================================== *)

Import Libc Protocol.

Lemma plain_no_nl (s : string) : plain s = true -> no_nl s = true.
Proof.
  induction s as [|c r IH]; cbn; [reflexivity|].
  unfold plain_char. intros H.
  apply andb_true_iff in H as [H1 H2]. apply andb_true_iff in H1 as [H1 _].
  rewrite H1, (IH H2). reflexivity.
Qed.

Lemma no_nl_app (a b : string) : no_nl (a +++ b) = no_nl a && no_nl b.
Proof.
  induction a as [|c r IH]; cbn; [reflexivity|].
  rewrite IH, andb_assoc. reflexivity.
Qed.

Lemma lines_no_nl (a : string) : no_nl a = true -> lines (a +++ nl) = [a].
Proof.
  induction a as [|c r IH]; cbn; [reflexivity|].
  intros H. apply andb_true_iff in H as [H1 H2].
  apply negb_true_iff in H1. rewrite H1, (IH H2). reflexivity.
Qed.

Lemma tokens_word (a r : string) :
  plain a = true -> tokens (a +++ String " " r) = a :: tokens r.
Proof.
  induction a as [|c a IH]; cbn; [reflexivity|].
  unfold plain_char. intros H.
  apply andb_true_iff in H as [H1 H2]. apply andb_true_iff in H1 as [H1 H3].
  apply negb_true_iff in H1, H3. rewrite H1, H3, (IH H2). reflexivity.
Qed.

Lemma tokens_last (a r : string) :
  plain a = true -> tokens (a +++ String "010" r) = [a].
Proof.
  induction a as [|c a IH]; cbn; [reflexivity|].
  unfold plain_char. intros H.
  apply andb_true_iff in H as [H1 H2]. apply andb_true_iff in H1 as [H1 H3].
  apply negb_true_iff in H1, H3. rewrite H1, H3, (IH H2). reflexivity.
Qed.

Lemma plain_uint (u : Decimal.uint) : plain (NilEmpty.string_of_uint u) = true.
Proof. induction u; cbn; try assumption; reflexivity. Qed.

Lemma plain_fmt_d (z : Z) : plain (fmt_d z) = true.
Proof.
  unfold fmt_d, NilZero.string_of_int, NilZero.string_of_uint.
  destruct (Z.to_int z) as [u|u]; destruct u; cbn;
    try reflexivity; apply plain_uint.
Qed.

Lemma no_nl_fmt_d (z : Z) : no_nl (fmt_d z) = true.
Proof. apply plain_no_nl, plain_fmt_d. Qed.

Example fmt_d_42 : fmt_d 42 = "42".
Proof. reflexivity. Qed.

Example fmt_d_minus_1 : fmt_d (-1) = "-1".
Proof. reflexivity. Qed.

Example atoi_42 : atoi "42" = 42.
Proof. reflexivity. Qed.

Example atoi_0 : atoi "0" = 0.
Proof. reflexivity. Qed.

Example atoi_signed_prefix : atoi "  -17rest" = -17.
Proof. reflexivity. Qed.

Lemma append_assoc (a b c : string) : (a +++ b) +++ c = a +++ b +++ c.
Proof. induction a as [|x a IH]; cbn; [reflexivity|]. rewrite IH. reflexivity. Qed.

Lemma append_nil_r (a : string) : a +++ "" = a.
Proof. induction a as [|x a IH]; cbn; [reflexivity|]. rewrite IH. reflexivity. Qed.

(** The text [print_status] hands to [printf] is the status line and a
    newline. *)
Lemma status_line_nl (tag : string) (pid ppid pgid sid code : Z) :
  tag +++ " pid=" +++ fmt_d pid +++ " ppid=" +++ fmt_d ppid
  +++ " pgid=" +++ fmt_d pgid +++ " sid=" +++ fmt_d sid
  +++ " exit=" +++ fmt_d code +++ nl
  = status_line tag pid ppid pgid sid code +++ nl.
Proof. unfold status_line. rewrite !append_assoc. reflexivity. Qed.

Lemma error_line_nl (err : Z) (msg : string) :
  "ERR errno=" +++ fmt_d err +++ " msg=" +++ msg +++ nl = error_line err msg +++ nl.
Proof. unfold error_line. rewrite !append_assoc. reflexivity. Qed.

Ltac plain_digits :=
  repeat match goal with
         | |- context [fmt_d ?z] =>
             let d := fresh "d" in
             let Hd := fresh "Hd" in
             pose proof (plain_fmt_d z) as Hd;
             set (d := fmt_d z) in *; clearbody d
         end.

Lemma tokens_plain (a : string) : plain a = true -> tokens a = [a].
Proof.
  induction a as [|c a IH]; cbn; [reflexivity|].
  unfold plain_char. intros H.
  apply andb_true_iff in H as [H1 H2]. apply andb_true_iff in H1 as [H1 H3].
  apply negb_true_iff in H1, H3. rewrite H1, H3, (IH H2). reflexivity.
Qed.

Ltac split_tokens :=
  cbn [append tokens is_nl Ascii.eqb Bool.eqb];
  repeat (first [ rewrite tokens_word by assumption
                | rewrite tokens_last by assumption
                | rewrite tokens_plain by assumption ];
          cbn [append tokens is_nl Ascii.eqb Bool.eqb]).

Lemma status_line_tokens (pid ppid pgid sid code : Z) :
  tokens (status_line "OK" pid ppid pgid sid code) =
  [ "OK"; "pid=" +++ fmt_d pid; "ppid=" +++ fmt_d ppid; "pgid=" +++ fmt_d pgid;
    "sid=" +++ fmt_d sid; "exit=" +++ fmt_d code ].
Proof.
  unfold status_line. plain_digits. split_tokens. reflexivity.
Qed.

Lemma status_line_exit_field (pid ppid pgid sid code : Z) :
  field "exit" (status_line "OK" pid ppid pgid sid code) = Some (fmt_d code).
Proof. unfold field. rewrite status_line_tokens. reflexivity. Qed.

Lemma status_line_is_ok (pid ppid pgid sid code : Z) :
  is_ok_line (status_line "OK" pid ppid pgid sid code) = true.
Proof. unfold is_ok_line, tag. rewrite status_line_tokens. reflexivity. Qed.

Lemma status_line_no_nl (pid ppid pgid sid code : Z) :
  no_nl (status_line "OK" pid ppid pgid sid code) = true.
Proof.
  unfold status_line. cbn [append no_nl is_nl Ascii.eqb Bool.eqb negb andb].
  repeat (rewrite no_nl_app, no_nl_fmt_d;
          cbn [append no_nl is_nl Ascii.eqb Bool.eqb negb andb]).
  apply no_nl_fmt_d.
Qed.

Lemma error_line_no_nl (err : Z) (msg : string) :
  no_nl msg = true -> no_nl (error_line err msg) = true.
Proof.
  intros H. unfold error_line.
  cbn [append no_nl is_nl Ascii.eqb Bool.eqb negb andb].
  rewrite no_nl_app, no_nl_fmt_d.
  cbn [append no_nl is_nl Ascii.eqb Bool.eqb negb andb]. exact H.
Qed.

Lemma one_line_app (a r : string) :
  no_nl a = true -> one_line (a +++ r) = one_line r.
Proof.
  induction a as [|c a IH]; cbn; [reflexivity|].
  intros H. apply andb_true_iff in H as [H1 H2].
  apply negb_true_iff in H1. rewrite H1. apply IH, H2.
Qed.

Lemma one_line_split (s : string) :
  one_line s = true -> exists l, s = l +++ nl /\ no_nl l = true.
Proof.
  induction s as [|c r IH]; cbn; [discriminate|].
  destruct (is_nl c) eqn:E.
  - intros H. apply String.eqb_eq in H. subst r.
    exists "". split; [|reflexivity].
    unfold is_nl in E. apply Ascii.eqb_eq in E. subst c. reflexivity.
  - intros H. destruct (IH H) as (l & -> & N).
    exists (String c l). split; [reflexivity|]. cbn. rewrite E, N. reflexivity.
Qed.

Lemma tokens_nl (l : string) : tokens (l +++ nl) = tokens l.
Proof.
  induction l as [|c l IH]; cbn; [reflexivity|]. rewrite IH. reflexivity.
Qed.

Ltac norm_append :=
  repeat first [ progress cbn [append] | rewrite append_assoc ].

Ltac no_nl_tac :=
  cbn [append no_nl is_nl Ascii.eqb Bool.eqb negb andb];
  repeat (rewrite no_nl_app, no_nl_fmt_d;
          cbn [append no_nl is_nl Ascii.eqb Bool.eqb negb andb]);
  first [ reflexivity | apply no_nl_fmt_d ].

Ltac one_line_tac :=
  rewrite ?append_assoc;
  cbn [append one_line is_nl Ascii.eqb Bool.eqb String.eqb];
  repeat (first [ rewrite one_line_app by
                    first [ apply no_nl_fmt_d | assumption ] ];
          cbn [append one_line is_nl Ascii.eqb Bool.eqb String.eqb]);
  reflexivity.

(* ================================================================== *)
(** ** Running the helper's functions *)
(* ================================================================== *)

Section ExecFacts.
Context {W : Type}.
Variable h : os W.

Lemma report_is_ok (w : W) (code : Z) : is_ok_line (report h w "OK" code) = true.
Proof.
  unfold report. destruct (fst (query_identity h w)) as [[[pid ppid] pgid] sid].
  apply status_line_is_ok.
Qed.

Lemma report_no_nl (w : W) (code : Z) : no_nl (report h w "OK" code) = true.
Proof.
  unfold report. destruct (fst (query_identity h w)) as [[[pid ppid] pgid] sid].
  apply status_line_no_nl.
Qed.

Lemma report_exit_field (w : W) (code : Z) :
  field "exit" (report h w "OK" code) = Some (fmt_d code).
Proof.
  unfold report. destruct (fst (query_identity h w)) as [[[pid ppid] pgid] sid].
  apply status_line_exit_field.
Qed.

(** [print_status] asks for the four ids, writes its line and flushes. *)
Lemma exec_print_status (tag : string) (code : Z) (k : prog Z) (s : process W) :
  exec h (bind (print_status tag code) (fun _ => k)) s =
  exec h k (mkProcess (snd (query_identity h (kern s))) ""
              (stdout s +++ buffered s +++ report h (kern s) tag code +++ nl)
              (stderr s)).
Proof.
  unfold report, query_identity. cbn -[append fmt_d nl].
  destruct (sys h Getpid (kern s)) as [pid w1]. cbn -[append fmt_d nl].
  destruct (sys h Getppid w1) as [ppid w2]. cbn -[append fmt_d nl].
  destruct (sys h (Getpgid 0) w2) as [pgid w3]. cbn -[append fmt_d nl].
  destruct (sys h (Getsid 0) w3) as [sid w4]. cbn -[append fmt_d nl].
  rewrite status_line_nl. reflexivity.
Qed.

(** [print_error] writes its line and flushes. *)
Lemma exec_print_error (err : Z) (msg : string) (k : prog Z) (s : process W) :
  exec h (bind (print_error err msg) (fun _ => k)) s =
  exec h k (mkProcess (kern s) ""
              (stdout s +++ buffered s +++ error_line err msg +++ nl) (stderr s)).
Proof. cbn -[append fmt_d nl]. rewrite error_line_nl. reflexivity. Qed.

Lemma prints_ok_check (r : Z * process W) :
  one_line (output r) = true -> is_ok_line (output r) = true -> prints_ok r.
Proof.
  intros H T. destruct (one_line_split _ H) as (l & E & N).
  exists l. split.
  - split; [exact E|]. rewrite E. apply lines_no_nl, N.
  - unfold is_ok_line, tag in *. rewrite E, tokens_nl in T. exact T.
Qed.

Lemma prints_err_check (r : Z * process W) :
  one_line (output r) = true -> is_err_line (output r) = true -> prints_err r.
Proof.
  intros H T. destruct (one_line_split _ H) as (l & E & N).
  exists l. split.
  - split; [exact E|]. rewrite E. apply lines_no_nl, N.
  - unfold is_err_line, tag in *. rewrite E, tokens_nl in T. exact T.
Qed.

Lemma report_line (w : W) (code : Z) :
  one_line (report h w "OK" code +++ nl) = true
  /\ is_ok_line (report h w "OK" code +++ nl) = true.
Proof.
  split.
  - rewrite one_line_app by apply report_no_nl. reflexivity.
  - unfold is_ok_line, tag. rewrite tokens_nl. apply report_is_ok.
Qed.

Lemma prints_line_intro (r : Z * process W) (l : string) :
  output r = l +++ nl -> no_nl l = true -> prints_line r l.
Proof. intros E H. split; [exact E|]. rewrite E. apply lines_no_nl, H. Qed.
End ExecFacts.

(* ================================================================== *)
(** ** The branches of [main] *)
(* ================================================================== *)

Local Open Scope prog_scope.

Lemma argc_lt2 {A : Type} (x y : A) (l : list A) :
  (Z.of_nat (List.length (x :: y :: l)) <? 2) = false.
Proof. apply Z.ltb_ge. cbn [List.length]. lia. Qed.

Lemma argc_lt3 {A : Type} (x y z : A) (l : list A) :
  (Z.of_nat (List.length (x :: y :: z :: l)) <? 3) = false.
Proof. apply Z.ltb_ge. cbn [List.length]. lia. Qed.

Lemma argc_ge3 {A : Type} (x y z : A) (l : list A) :
  (3 <=? Z.of_nat (List.length (x :: y :: z :: l))) = true.
Proof. apply Z.leb_le. cbn [List.length]. lia. Qed.

Ltac main_branch :=
  unfold main; cbv zeta;
  rewrite ?argc_lt2, ?argc_lt3, ?argc_ge3; reflexivity.

Section Branches.
Variable p : platform.
Variables (a0 arg : string) (rest : list string).

Lemma main_exit :
  main p (a0 :: "exit" :: arg :: rest) =
  (print_status "OK" (atoi arg) ;; Ret (atoi arg)).
Proof. main_branch. Qed.

Lemma main_exit_default :
  main p [a0; "exit"] = (print_status "OK" 0 ;; Ret 0).
Proof. reflexivity. Qed.

Lemma main_stop_exit :
  main p (a0 :: "stop-exit" :: arg :: rest) =
  (raise (SIGSTOP p) ;; print_status "OK" (atoi arg) ;; Ret (atoi arg)).
Proof. main_branch. Qed.

Lemma main_stop_exit_default :
  main p [a0; "stop-exit"] =
  (raise (SIGSTOP p) ;; print_status "OK" 0 ;; Ret 0).
Proof. reflexivity. Qed.

Lemma main_verify_parent :
  main p (a0 :: "verify-parent" :: arg :: rest) =
  (actual <- getppid ;;
   (if actual =? atoi arg then print_status "OK" 0
    else
      printf ("ERR errno=0 msg=ppid_mismatch expected=" +++ fmt_d (atoi arg)
              +++ " actual=" +++ fmt_d actual +++ nl) ;;
      fflush_stdout) ;;
   Ret (if actual =? atoi arg then 0 else 1)).
Proof. main_branch. Qed.

Lemma main_verify_parent_missing :
  main p [a0; "verify-parent"] =
  (fprintf_stderr ("verify-parent requires <ppid> argument" +++ nl) ;; Ret 1).
Proof. reflexivity. Qed.

Lemma main_create_session :
  main p (a0 :: "create-session" :: rest) =
  (sid <- setsid ;;
   if 0 <? sid then print_status "OK" 0 ;; Ret 0
   else e <- errno ;; print_error e "setsid_failed" ;; Ret 1).
Proof. main_branch. Qed.

Lemma main_double_setsid :
  main p (a0 :: "double-setsid" :: rest) =
  (first <- setsid ;;
   if first <=? 0 then
     e <- errno ;; print_error e "first_setsid_failed" ;; Ret 1
   else
     second <- setsid ;;
     second_failed_eperm <-
       (if second <? 0 then e <- errno ;; Ret (e =? EPERM) else Ret false) ;;
     if second_failed_eperm then print_status "OK" 0 ;; Ret 0
     else e <- errno ;; print_error e "second_setsid_should_fail_eperm" ;; Ret 1).
Proof. main_branch. Qed.

Lemma main_become_group_leader :
  main p (a0 :: "become-group-leader" :: rest) =
  (r <- setpgid 0 0 ;;
   if negb (r =? 0) then
     e <- errno ;; print_error e "setpgid_failed" ;; Ret 1
   else
     pid <- getpid ;;
     pgid <- getpgid 0 ;;
     if pgid =? pid then print_status "OK" 0 ;; Ret 0
     else
       printf ("ERR errno=0 msg=not_group_leader pid=" +++ fmt_d pid
               +++ " pgid=" +++ fmt_d pgid +++ nl) ;;
       fflush_stdout ;;
       Ret 1).
Proof. main_branch. Qed.

Lemma main_setpgid_explicit :
  main p (a0 :: "setpgid-explicit" :: rest) =
  (pid <- getpid ;;
   r <- setpgid pid pid ;;
   if negb (r =? 0) then
     e <- errno ;; print_error e "setpgid_explicit_failed" ;; Ret 1
   else
     pgid <- getpgid pid ;;
     if pgid =? pid then print_status "OK" 0 ;; Ret 0
     else
       printf ("ERR errno=0 msg=pgid_not_set pid=" +++ fmt_d pid
               +++ " pgid=" +++ fmt_d pgid +++ nl) ;;
       fflush_stdout ;;
       Ret 1).
Proof. main_branch. Qed.

Lemma main_fork_exit :
  main p (a0 :: "fork-exit" :: arg :: rest) = fork_exit_body p (atoi arg).
Proof. main_branch. Qed.

Lemma main_fork_exit_default : main p [a0; "fork-exit"] = fork_exit_body p 0.
Proof. reflexivity. Qed.

Lemma main_fork_exit_any :
  main p (a0 :: "fork-exit" :: rest) =
  fork_exit_body p (match rest with a :: _ => atoi a | [] => 0 end).
Proof. destruct rest; [reflexivity|main_branch]. Qed.

Lemma main_unknown (cmd : string) :
  recognized cmd = false ->
  main p (a0 :: cmd :: rest) =
  (fprintf_stderr ("Unknown command: " +++ cmd +++ nl) ;; Ret 1).
Proof.
  unfold recognized. cbn [existsb]. intros H.
  repeat (apply orb_false_iff in H; destruct H as [?E H]).
  unfold main; cbv zeta. rewrite argc_lt2. cbn [List.nth].
  rewrite E, E0, E1, E2, E3, E4, E5, E6. reflexivity.
Qed.
End Branches.

Lemma main_no_command (p : platform) (argv : list string) :
  (List.length argv < 2)%nat -> main p argv = (usage ;; Ret 1).
Proof.
  intros H. unfold main. cbv zeta.
  replace (Z.of_nat (List.length argv) <? 2) with true; [reflexivity|].
  symmetry. apply Z.ltb_lt. lia.
Qed.

(* ================================================================== *)
(** ** The commands, against any operating system *)
(* ================================================================== *)

Ltac run :=
  cbn -[print_status print_error append fmt_d atoi nl report query_identity
        error_line Posix.do_setpgid];
  rewrite ?exec_print_status, ?exec_print_error;
  cbn -[print_status print_error append fmt_d atoi nl report query_identity
        error_line Posix.do_setpgid].

Ltac crunch :=
  repeat first
         [ progress run
         | match goal with
          | |- context [sys ?h ?c ?w] => destruct (sys h c w) as [? ?]
          | |- context [sys_fork ?h ?w] => destruct (sys_fork h w) as [?|? ? ?]
          | |- context [sys_wait ?h ?a ?b ?w] =>
              destruct (sys_wait h a b w) as [[? ?] ?]
          | |- context [if ?b then _ else _] => destruct b
           end ].

Ltac show_output :=
  unfold output, flush; cbn [snd stdout buffered kern append];
  rewrite ?append_nil_r.

Ltac one_protocol_line :=
  first [ left; apply prints_ok_check;
          [ show_output;
            first [ eapply proj1, report_line | unfold error_line; one_line_tac ]
          | show_output; first [ eapply proj2, report_line | reflexivity ] ]
        | right; apply prints_err_check;
          [ show_output; unfold error_line; one_line_tac
          | show_output; reflexivity ] ].

Section Commands.
Context {W : Type}.
Variable h : os W.
Variable p : platform.

(** C7, amended: [exit <code>] prints exactly one line, the [OK] line of
    [print_status] whose [exit] field is the numeric value of [<code>], and
    [main] returns that value; the process's own exit status is its low
    eight bits, which is the value itself exactly when it is in 0..255. *)
Theorem exit_prints_code_and_exits_with_its_low_byte
    (w : W) (a0 code : string) (rest : list string) :
  let r := invoke h p (a0 :: "exit" :: code :: rest) w in
  let line := report h w "OK" (atoi code) in
  prints_line r line
  /\ is_ok_line line = true
  /\ field "exit" line = Some (fmt_d (atoi code))
  /\ exit_status r = atoi code
  /\ process_exit_status r = atoi code mod 256
  /\ (process_exit_status r = atoi code <-> 0 <= atoi code <= 255).
Proof.
  cbv zeta. unfold process_exit_status, invoke.
  rewrite main_exit, exec_print_status.
  cbn [exec start kern stdout buffered stderr flush exit_status fst].
  rewrite land_255.
  pose proof (Z.mod_pos_bound (atoi code) 256 ltac:(lia)) as B.
  split; [split|split; [|split; [|split; [|split]]]].
  - cbn. rewrite append_nil_r. reflexivity.
  - cbn. rewrite append_nil_r. apply lines_no_nl, report_no_nl.
  - apply report_is_ok.
  - apply report_exit_field.
  - reflexivity.
  - reflexivity.
  - split; intros H; [lia|apply Z.mod_small; lia].
Qed.

(** C5: [verify-parent <ppid>] prints an [OK] line and exits 0 exactly
    when [getppid] returns the numeric value of [<ppid>]; otherwise it
    prints the [ppid_mismatch] line with the expected and the actual
    parent pid and exits 1. *)
Theorem verify_parent_ok_iff_ppid_matches
    (w : W) (a0 ppid : string) (rest : list string) :
  let expected := atoi ppid in
  let actual := fst (sys h Getppid w) in
  let r := invoke h p (a0 :: "verify-parent" :: ppid :: rest) w in
  let mismatch :=
    "ERR errno=0 msg=ppid_mismatch expected=" +++ fmt_d expected
    +++ " actual=" +++ fmt_d actual in
  (prints_ok r /\ exit_status r = 0 <-> actual = expected)
  /\ (actual <> expected ->
      prints_line r mismatch
      /\ is_err_line mismatch = true
      /\ field "expected" mismatch = Some (fmt_d expected)
      /\ field "actual" mismatch = Some (fmt_d actual)
      /\ exit_status r = 1).
Proof.
  cbv zeta. unfold invoke. rewrite main_verify_parent. run.
  destruct (sys h Getppid w) as [actual w1]. run.
  destruct (Z.eqb_spec actual (atoi ppid)) as [E|E]; run.
  - split; [|intros H; contradiction].
    split; [intros _; exact E|intros _]. split; [|reflexivity].
    exists (report h w1 "OK" 0). split; [|apply report_is_ok].
    apply prints_line_intro; [|apply report_no_nl].
    unfold output. cbn. rewrite append_nil_r. reflexivity.
  - split.
    + split; [intros [_ H]; discriminate H|intros H; contradiction].
    + intros _.
      assert (N : no_nl ("ERR errno=0 msg=ppid_mismatch expected="
                         +++ fmt_d (atoi ppid) +++ " actual=" +++ fmt_d actual)
                  = true).
      { cbn [append no_nl is_nl Ascii.eqb Bool.eqb negb andb].
        rewrite no_nl_app, no_nl_fmt_d.
        cbn [append no_nl is_nl Ascii.eqb Bool.eqb negb andb].
        apply no_nl_fmt_d. }
      repeat split.
      * unfold output. cbn -[append fmt_d nl]. rewrite !append_assoc. reflexivity.
      * unfold output. cbn -[append fmt_d nl lines].
        rewrite <- (lines_no_nl _ N), !append_assoc. reflexivity.
      * unfold field. plain_digits. split_tokens. reflexivity.
      * unfold field. plain_digits. split_tokens. reflexivity.
Qed.

(** C9: without a [<code>] argument, [exit], [stop-exit] and [fork-exit]
    run the very program they run for the argument [0], hence behave the
    same in every state of every operating system. *)
Theorem code_argument_defaults_to_zero (a0 : string) :
  (main p [a0; "exit"] = main p [a0; "exit"; "0"]
   /\ main p [a0; "stop-exit"] = main p [a0; "stop-exit"; "0"]
   /\ main p [a0; "fork-exit"] = main p [a0; "fork-exit"; "0"])
  /\ (forall w : W,
        invoke h p [a0; "exit"] w = invoke h p [a0; "exit"; "0"] w
        /\ invoke h p [a0; "stop-exit"] w = invoke h p [a0; "stop-exit"; "0"] w
        /\ invoke h p [a0; "fork-exit"] w = invoke h p [a0; "fork-exit"; "0"] w)
  /\ (forall w : W,
        exit_status (invoke h p [a0; "exit"] w) = 0
        /\ exit_status (invoke h p [a0; "stop-exit"] w) = 0
        /\ field "exit" (report h w "OK" 0) = Some "0").
Proof.
  assert (E : main p [a0; "exit"] = main p [a0; "exit"; "0"]
              /\ main p [a0; "stop-exit"] = main p [a0; "stop-exit"; "0"]
              /\ main p [a0; "fork-exit"] = main p [a0; "fork-exit"; "0"]).
  { rewrite main_exit, main_stop_exit, main_fork_exit.
    rewrite main_exit_default, main_stop_exit_default, main_fork_exit_default.
    repeat split; reflexivity. }
  split; [exact E|]. destruct E as (E1 & E2 & E3). split.
  - intros w. unfold invoke. rewrite E1, E2, E3. repeat split; reflexivity.
  - intros w. unfold invoke.
    rewrite main_exit_default, main_stop_exit_default. run.
    destruct (sys h (Raise (SIGSTOP p)) w) as [r1 w1]. run.
    repeat split; try reflexivity. apply report_exit_field.
Qed.

(** C10: in [fork-exit], once [waitpid] has returned the child's pid the
    helper exits with status 0 whatever the status word says; when the
    word does not report a normal exit, the line it prints carries
    [child_exit=-1]. *)
Theorem fork_exit_succeeds_whatever_the_child_did
    (w : W) (a0 : string) (rest : list string)
    (c : positive) (wc w2 : W) (join : Z -> W -> W) (status : Z) :
  let code := match rest with a :: _ => atoi a | [] => 0 end in
  sys_fork h w = Forked c wc join ->
  sys_wait h (Z.pos c) 0 (join code wc) = (Z.pos c, status, w2) ->
  let r := invoke h p (a0 :: "fork-exit" :: rest) w in
  let line :=
    "OK pid=" +++ fmt_d (fst (sys h Getpid w2)) +++ " child=" +++ fmt_d (Z.pos c)
    +++ " child_exit=-1" in
  exit_status r = 0
  /\ (WaitStatus.WIFEXITED p status = 0 ->
      prints_line r line
      /\ is_ok_line line = true
      /\ field "child_exit" line = Some "-1").
Proof.
  cbv zeta. unfold invoke. rewrite main_fork_exit_any.
  generalize (match rest with a :: _ => atoi a | [] => 0 end). clear rest.
  intros code Hfork Hwait. unfold fork_exit_body. run.
  rewrite Hfork. run. rewrite Hwait. run. rewrite Pos.eqb_refl. run.
  destruct (sys h Getpid w2) as [pid w3]. run.
  split; [reflexivity|]. intros Hst. rewrite Hst. run.
  assert (N : no_nl ("OK pid=" +++ fmt_d pid +++ " child=" +++ fmt_d (Z.pos c)
                     +++ " child_exit=-1") = true).
  { cbn [append no_nl is_nl Ascii.eqb Bool.eqb negb andb].
    rewrite no_nl_app, no_nl_fmt_d.
    cbn [append no_nl is_nl Ascii.eqb Bool.eqb negb andb].
    rewrite no_nl_app, no_nl_fmt_d. reflexivity. }
  repeat split.
  - unfold output. cbn -[append fmt_d nl]. rewrite !append_assoc. reflexivity.
  - unfold output. cbn -[append fmt_d nl lines].
    rewrite <- (lines_no_nl _ N), !append_assoc. reflexivity.
  - unfold field. plain_digits. split_tokens. reflexivity.
Qed.

Lemma recognized_cases (cmd : string) :
  recognized cmd = true ->
  cmd = "exit" \/ cmd = "stop-exit" \/ cmd = "verify-parent"
  \/ cmd = "create-session" \/ cmd = "double-setsid"
  \/ cmd = "become-group-leader" \/ cmd = "setpgid-explicit"
  \/ cmd = "fork-exit".
Proof.
  unfold recognized. cbn [existsb]. rewrite orb_false_r, !orb_true_iff.
  rewrite !String.eqb_eq. tauto.
Qed.

(** C8, amended: a recognized command prints exactly one line, an [OK] or
    an [ERR] line, on standard output, except [verify-parent] without its
    [<ppid>], which prints nothing there, writes a message to standard
    error and exits 1; an unrecognized command and a missing command
    print nothing on standard output, write the unknown-command message or
    the usage text to standard error and exit 1. *)
Theorem recognized_commands_print_one_line
    (w : W) (a0 cmd : string) (rest : list string) :
  let r := invoke h p (a0 :: cmd :: rest) w in
  (recognized cmd = true -> cmd <> "verify-parent" \/ rest <> [] ->
   prints_ok r \/ prints_err r)
  /\ (cmd = "verify-parent" -> rest = [] ->
      output r = ""
      /\ errors r = "verify-parent requires <ppid> argument" +++ nl
      /\ exit_status r = 1)
  /\ (recognized cmd = false ->
      output r = ""
      /\ errors r = "Unknown command: " +++ cmd +++ nl
      /\ exit_status r = 1)
  /\ (forall argv : list string, (List.length argv < 2)%nat ->
      let r0 := invoke h p argv w in
      output r0 = ""
      /\ List.hd "" (lines (errors r0)) = "Usage: posix-test-helper <command> [args...]"
      /\ List.length (lines (errors r0)) = 10%nat
      /\ exit_status r0 = 1).
Proof.
  cbv zeta. unfold invoke. repeat split.
  - intros Hrec Harg. apply recognized_cases in Hrec.
    destruct Hrec as [->|[->|[->|[->|[->|[->|[->| ->]]]]]]].
    + destruct rest as [|arg rest'];
        [rewrite main_exit_default|rewrite main_exit]; crunch; one_protocol_line.
    + destruct rest as [|arg rest'];
        [rewrite main_stop_exit_default|rewrite main_stop_exit];
        crunch; one_protocol_line.
    + destruct rest as [|arg rest']; [destruct Harg; congruence|].
      rewrite main_verify_parent. crunch; one_protocol_line.
    + rewrite main_create_session. crunch; one_protocol_line.
    + rewrite main_double_setsid. crunch; one_protocol_line.
    + rewrite main_become_group_leader. crunch; one_protocol_line.
    + rewrite main_setpgid_explicit. crunch; one_protocol_line.
    + rewrite main_fork_exit_any. unfold fork_exit_body. crunch; one_protocol_line.
  - subst. reflexivity.
  - subst. reflexivity.
  - subst. reflexivity.
  - rewrite main_unknown by assumption. reflexivity.
  - rewrite main_unknown by assumption. reflexivity.
  - rewrite main_unknown by assumption. reflexivity.
  - rewrite main_no_command by assumption. reflexivity.
  - rewrite main_no_command by assumption. reflexivity.
  - rewrite main_no_command by assumption. reflexivity.
  - rewrite main_no_command by assumption. reflexivity.
Qed.
End Commands.

(** C7, as the claim states it, fails: [exit 256] prints [exit=256] and
    [main] returns 256, but the exit status of the process is 0. *)
Lemma exit_256_counterexample :
  let r :=
    invoke (Posix.posix Linux) Linux ["posix-test-helper"; "exit"; "256"]
      Posix.member in
  atoi "256" = 256
  /\ output r = "OK pid=100 ppid=50 pgid=60 sid=60 exit=256" +++ nl
  /\ field "exit" "OK pid=100 ppid=50 pgid=60 sid=60 exit=256" = Some "256"
  /\ process_exit_status r = 0
  /\ process_exit_status r <> atoi "256".
Proof.
  cbv zeta. repeat split; try reflexivity. vm_compute. discriminate.
Qed.

(** C8, as the claim states it, fails: [verify-parent] is a recognized
    command, yet without its argument nothing reaches standard output. *)
Lemma verify_parent_without_ppid_counterexample :
  let r :=
    invoke (Posix.posix Linux) Linux ["posix-test-helper"; "verify-parent"]
      Posix.member in
  recognized "verify-parent" = true
  /\ output r = ""
  /\ ~ (prints_ok r \/ prints_err r).
Proof.
  cbv zeta. split; [reflexivity|]. split; [reflexivity|].
  intros [(l & [E _] & _)|(l & [E _] & _)];
    vm_compute in E; destruct l; discriminate E.
Qed.

(* ================================================================== *)
(** ** The POSIX process model *)
(* ================================================================== *)

Import Posix.

Lemma error_line_errno_field (err : Z) (msg : string) :
  plain msg = true -> field "errno" (error_line err msg) = Some (fmt_d err).
Proof.
  intros Hm. unfold field, error_line. plain_digits. split_tokens. reflexivity.
Qed.

Lemma error_line_prints {W : Type} (r : Z * process W) (err : Z) (msg : string) :
  output r = error_line err msg +++ nl -> no_nl msg = true ->
  prints_line r (error_line err msg).
Proof. intros E N. apply prints_line_intro; [exact E|apply error_line_no_nl, N]. Qed.

Section PosixFacts.
Variable p : platform.

(** After a successful [setsid] the process leads its group, so the next
    [setsid] fails with [EPERM]. *)
Lemma setsid_twice (k : kernel) :
  0 < fst (do_setsid k) ->
  is_group_leader k = false
  /\ do_setsid (snd (do_setsid k)) = fail (snd (do_setsid k)) EPERM.
Proof.
  unfold do_setsid. destruct (is_group_leader k) eqn:E; cbn [fst snd fail].
  - intros H. exfalso. lia.
  - intros _. split; [reflexivity|].
    unfold is_group_leader. cbn [k_pgid k_pid]. rewrite Pos.eqb_refl. reflexivity.
Qed.

(** [setpgid] on the caller itself, as [setpgid(0,0)] or
    [setpgid(pid,pid)]: refused to a session leader, otherwise the caller
    becomes the leader of its own group. *)
Lemma setpgid_self (k : kernel) (pid : Z) :
  is_self k pid = true ->
  do_setpgid k pid pid =
  if is_session_leader k then fail k EPERM
  else (0, mkKernel (k_pid k) (k_ppid k) (k_pid k) (k_sid k) (k_errno k)
             (k_gap k) (k_slots k) (k_zombies k) (k_stops k) (k_fate k)).
Proof.
  unfold is_self, do_setpgid. intros H. apply orb_true_iff in H as [H|H];
    apply Z.eqb_eq in H; subst pid; cbn -[is_session_leader fail];
    rewrite Pos.eqb_refl; cbn -[is_session_leader fail];
    destruct (is_session_leader k); reflexivity.
Qed.

Lemma is_self_zero (k : kernel) : is_self k 0 = true.
Proof. reflexivity. Qed.

Lemma is_self_pid (k : kernel) : is_self k (Z.pos (k_pid k)) = true.
Proof. unfold is_self. cbn. apply Pos.eqb_refl. Qed.

(** A successful [setpgid] on the caller makes its group id its pid, for
    either way of naming the caller in the following [getpgid]. *)
Lemma getpgid_after_setpgid (k : kernel) (pid q : Z) :
  is_self k pid = true -> is_self k q = true ->
  fst (do_setpgid k pid pid) = 0 ->
  is_session_leader k = false
  /\ fst (do_call p (Getpgid q) (snd (do_setpgid k pid pid))) = Z.pos (k_pid k).
Proof.
  intros Hp Hq. rewrite (setpgid_self k pid Hp).
  destruct (is_session_leader k); cbn [fst snd fail]; [discriminate|].
  intros _. split; [reflexivity|]. cbn [do_call].
  unfold is_self in *. cbn [k_pid] in *. rewrite Hq. reflexivity.
Qed.
End PosixFacts.

(** C2: on a POSIX kernel a second [setsid] after a successful one fails
    with [EPERM]; against any operating system [double-setsid] prints an
    [OK] line and exits 0 exactly when the first call succeeded and the
    second failed with [EPERM], and otherwise prints an [ERR] line with the
    current [errno] and exits 1; so on a POSIX kernel a process that is not
    yet a group leader gets the [OK] line. *)
Theorem double_setsid_detects_second_failure
    (p : platform) (a0 : string) (rest : list string) :
  (forall k : kernel,
      0 < fst (sys (posix p) Setsid k) ->
      let k1 := snd (sys (posix p) Setsid k) in
      fst (sys (posix p) Setsid k1) = -1
      /\ errno_of (posix p) (snd (sys (posix p) Setsid k1)) = EPERM)
  /\ (forall (W : Type) (h : os W) (w : W),
        let first := fst (sys h Setsid w) in
        let w1 := snd (sys h Setsid w) in
        let second := fst (sys h Setsid w1) in
        let w2 := snd (sys h Setsid w1) in
        let r := invoke h p (a0 :: "double-setsid" :: rest) w in
        (prints_ok r /\ exit_status r = 0
         <-> 0 < first /\ second < 0 /\ errno_of h w2 = EPERM)
        /\ (first <= 0 ->
            let line := error_line (errno_of h w1) "first_setsid_failed" in
            prints_line r line
            /\ field "errno" line = Some (fmt_d (errno_of h w1))
            /\ exit_status r = 1)
        /\ (0 < first -> ~ (second < 0 /\ errno_of h w2 = EPERM) ->
            let line :=
              error_line (errno_of h w2) "second_setsid_should_fail_eperm" in
            prints_line r line
            /\ field "errno" line = Some (fmt_d (errno_of h w2))
            /\ exit_status r = 1))
  /\ (forall k : kernel,
        is_group_leader k = false ->
        let r := invoke (posix p) p (a0 :: "double-setsid" :: rest) k in
        prints_line r
          (status_line "OK" (Z.pos (k_pid k)) (k_ppid k) (Z.pos (k_pid k))
             (Z.pos (k_pid k)) 0)
        /\ exit_status r = 0).
Proof.
  split; [|split].
  - intros k H. cbv zeta. cbn [sys posix do_call errno_of] in *.
    destruct (setsid_twice k H) as [_ E]. rewrite E. split; reflexivity.
  - intros W h w. cbv zeta. unfold invoke. rewrite main_double_setsid. run.
    destruct (sys h Setsid w) as [first w1]. run.
    destruct (Z.leb_spec first 0) as [F|F]; run.
    + split; [|split].
      * split; [intros [_ H]; discriminate H|intros [H _]; lia].
      * intros _. split; [|split; [apply error_line_errno_field|]; reflexivity].
        apply error_line_prints; [|reflexivity].
        show_output. reflexivity.
      * intros H. lia.
    + destruct (sys h Setsid w1) as [second w2]. run.
      assert (Hok : forall w' : W,
                 prints_ok (0, flush (mkProcess (snd (query_identity h w')) ""
                                        ("" +++ "" +++ report h w' "OK" 0 +++ nl) ""))).
      { intros w'. apply prints_ok_check; show_output;
          [eapply proj1, report_line|eapply proj2, report_line]. }
      assert (Herr : prints_line
                       (1, flush (mkProcess w2 ""
                                    ("" +++ "" +++
                                     error_line (errno_of h w2)
                                       "second_setsid_should_fail_eperm" +++ nl) ""))
                       (error_line (errno_of h w2) "second_setsid_should_fail_eperm")).
      { apply error_line_prints; [|reflexivity]. show_output. reflexivity. }
      destruct (Z.ltb_spec second 0) as [S|S]; run;
        [destruct (Z.eqb_spec (errno_of h w2) EPERM) as [E|E]; run|].
      * split; [|split].
        -- split; [intros _; repeat split; assumption|intros _].
           split; [apply Hok|reflexivity].
        -- intros H. lia.
        -- intros _ H. exfalso. apply H. split; assumption.
      * split; [|split].
        -- split; [intros [_ H]; discriminate H|intros (_ & _ & H); contradiction].
        -- intros H. lia.
        -- intros _ _.
           split; [exact Herr|split; [apply error_line_errno_field|]; reflexivity].
      * split; [|split].
        -- split; [intros [_ H]; discriminate H|intros (_ & H & _); lia].
        -- intros H. lia.
        -- intros _ _.
           split; [exact Herr|split; [apply error_line_errno_field|]; reflexivity].
  - intros k Hk. cbv zeta. unfold invoke. rewrite main_double_setsid. run.
    unfold do_setsid. rewrite Hk. run.
    unfold do_setsid, is_group_leader. cbn [k_pgid k_pid].
    rewrite Pos.eqb_refl. run.
    split; [|reflexivity].
    apply prints_line_intro; [|apply status_line_no_nl].
    show_output. reflexivity.
Qed.

(** C4: on a POSIX kernel a successful [setpgid(0,0)] or [setpgid(pid,pid)]
    leaves the process-group id equal to the pid, and the helper then prints
    an [OK] line and exits 0; against any operating system
    [become-group-leader] and [setpgid-explicit] print an [OK] line and exit
    0 when [setpgid] returns 0 and the queried group id is the pid, and print
    an [ERR] line and exit 1 when [setpgid] fails or the query disagrees. *)
Theorem setpgid_commands_verify_group_leadership
    (p : platform) (a0 : string) (rest : list string) :
  (forall k : kernel,
      let pid := Z.pos (k_pid k) in
      (fst (sys (posix p) (Setpgid 0 0) k) = 0 ->
       fst (sys (posix p) (Getpgid 0) (snd (sys (posix p) (Setpgid 0 0) k))) = pid
       /\ prints_ok (invoke (posix p) p (a0 :: "become-group-leader" :: rest) k)
       /\ exit_status (invoke (posix p) p (a0 :: "become-group-leader" :: rest) k) = 0)
      /\ (fst (sys (posix p) (Setpgid pid pid) k) = 0 ->
          fst (sys (posix p) (Getpgid pid) (snd (sys (posix p) (Setpgid pid pid) k)))
          = pid
          /\ prints_ok (invoke (posix p) p (a0 :: "setpgid-explicit" :: rest) k)
          /\ exit_status (invoke (posix p) p (a0 :: "setpgid-explicit" :: rest) k) = 0))
  /\ (forall (W : Type) (h : os W) (w : W),
        let ret := fst (sys h (Setpgid 0 0) w) in
        let w1 := snd (sys h (Setpgid 0 0) w) in
        let pid := fst (sys h Getpid w1) in
        let w2 := snd (sys h Getpid w1) in
        let pgid := fst (sys h (Getpgid 0) w2) in
        let r := invoke h p (a0 :: "become-group-leader" :: rest) w in
        let disagree :=
          "ERR errno=0 msg=not_group_leader pid=" +++ fmt_d pid
          +++ " pgid=" +++ fmt_d pgid in
        (ret = 0 -> pgid = pid -> prints_ok r /\ exit_status r = 0)
        /\ (ret <> 0 ->
            prints_line r (error_line (errno_of h w1) "setpgid_failed")
            /\ exit_status r = 1)
        /\ (ret = 0 -> pgid <> pid ->
            prints_line r disagree /\ is_err_line disagree = true
            /\ exit_status r = 1))
  /\ (forall (W : Type) (h : os W) (w : W),
        let pid := fst (sys h Getpid w) in
        let w1 := snd (sys h Getpid w) in
        let ret := fst (sys h (Setpgid pid pid) w1) in
        let w2 := snd (sys h (Setpgid pid pid) w1) in
        let pgid := fst (sys h (Getpgid pid) w2) in
        let r := invoke h p (a0 :: "setpgid-explicit" :: rest) w in
        let disagree :=
          "ERR errno=0 msg=pgid_not_set pid=" +++ fmt_d pid
          +++ " pgid=" +++ fmt_d pgid in
        (ret = 0 -> pgid = pid -> prints_ok r /\ exit_status r = 0)
        /\ (ret <> 0 ->
            prints_line r (error_line (errno_of h w2) "setpgid_explicit_failed")
            /\ exit_status r = 1)
        /\ (ret = 0 -> pgid <> pid ->
            prints_line r disagree /\ is_err_line disagree = true
            /\ exit_status r = 1)).
Proof.
  assert (Hok : forall (W : Type) (h : os W) (w' : W),
             prints_ok (0, flush (mkProcess (snd (query_identity h w')) ""
                                    ("" +++ "" +++ report h w' "OK" 0 +++ nl) ""))).
  { intros W h w'. apply prints_ok_check; show_output;
      [eapply proj1, report_line|eapply proj2, report_line]. }
  split; [|split].
  - intros k. cbv zeta. cbn [sys posix]. split; intros H.
    + destruct (getpgid_after_setpgid p k 0 0 (is_self_zero k) (is_self_zero k) H)
        as [L G].
      split; [exact G|]. unfold invoke. rewrite main_become_group_leader. run.
      rewrite (setpgid_self k 0 (is_self_zero k)), L. run.
      rewrite Pos.eqb_refl. run. split; [apply Hok|reflexivity].
    + destruct (getpgid_after_setpgid p k _ _ (is_self_pid k) (is_self_pid k) H)
        as [L G].
      split; [exact G|]. unfold invoke. rewrite main_setpgid_explicit. run.
      rewrite (setpgid_self k _ (is_self_pid k)), L. run.
      rewrite !Pos.eqb_refl. run. rewrite Pos.eqb_refl. run.
      split; [apply Hok|reflexivity].
  - intros W h w. cbv zeta. unfold invoke. rewrite main_become_group_leader. run.
    destruct (sys h (Setpgid 0 0) w) as [ret w1]. run.
    destruct (Z.eqb_spec ret 0) as [R|R]; run.
    + destruct (sys h Getpid w1) as [pid w2]. run.
      destruct (sys h (Getpgid 0) w2) as [pgid w3]. run.
      destruct (Z.eqb_spec pgid pid) as [G|G]; run.
      * split; [|split]; intros; try contradiction.
        split; [apply Hok|reflexivity].
      * split; [|split]; intros; try contradiction.
        split; [|split; reflexivity].
        apply prints_line_intro; [|no_nl_tac].
        show_output. rewrite !append_assoc. reflexivity.
    + split; [|split]; intros; try contradiction.
      split; [|reflexivity].
      apply error_line_prints; [|reflexivity]. show_output. reflexivity.
  - intros W h w. cbv zeta. unfold invoke. rewrite main_setpgid_explicit. run.
    destruct (sys h Getpid w) as [pid w1]. run.
    destruct (sys h (Setpgid pid pid) w1) as [ret w2]. run.
    destruct (Z.eqb_spec ret 0) as [R|R]; run.
    + destruct (sys h (Getpgid pid) w2) as [pgid w3]. run.
      destruct (Z.eqb_spec pgid pid) as [G|G]; run.
      * split; [|split]; intros; try contradiction.
        split; [apply Hok|reflexivity].
      * split; [|split]; intros; try contradiction.
        split; [|split; reflexivity].
        apply prints_line_intro; [|no_nl_tac].
        show_output. rewrite !append_assoc. reflexivity.
    + split; [|split]; intros; try contradiction.
      split; [|reflexivity].
      apply error_line_prints; [|reflexivity]. show_output. reflexivity.
Qed.

(** C3, as the claim states it, fails: the [OK] line of [fork-exit 42]
    reports [child_exit=42] but has no [exit] field that could be 0. *)
Lemma fork_exit_42_exit_field_counterexample :
  let r := invoke (posix Linux) Linux ["posix-test-helper"; "fork-exit"; "42"] member in
  ~ (exists l : string,
        prints_line r l
        /\ field "child_exit" l = Some "42"
        /\ field "exit" l = Some "0"
        /\ exit_status r = 0).
Proof.
  cbv zeta. intros (l & [_ L] & _ & F & _).
  vm_compute in L. injection L as <-. vm_compute in F. discriminate F.
Qed.

(** C3, amended: for [fork-exit 42], when [fork] and [waitpid] succeed and
    the child exits normally, the one line printed is
    [OK pid=<self> child=<childpid> child_exit=42], which has no [exit]
    field, and the helper exits with status 0: on a POSIX kernel, where the
    child's [_exit(42)] is what [waitpid] reports, and against any operating
    system whose [waitpid] reports a normal exit with 42. *)
Theorem fork_exit_42_reports_child_exit
    (p : platform) (a0 : string) (rest : list string) :
  (forall k : kernel,
      k_slots k <> O ->
      k_fate k = None ->
      let r := invoke (posix p) p (a0 :: "fork-exit" :: "42" :: rest) k in
      let line :=
        "OK pid=" +++ fmt_d (Z.pos (k_pid k)) +++ " child="
        +++ fmt_d (Z.pos (k_pid k + k_gap k)) +++ " child_exit=42" in
      prints_line r line
      /\ is_ok_line line = true
      /\ field "child_exit" line = Some "42"
      /\ field "exit" line = None
      /\ exit_status r = 0)
  /\ (forall (W : Type) (h : os W) (w : W)
             (c : positive) (wc w2 : W) (join : Z -> W -> W) (status : Z),
        sys_fork h w = Forked c wc join ->
        sys_wait h (Z.pos c) 0 (join 42 wc) = (Z.pos c, status, w2) ->
        WaitStatus.WIFEXITED p status <> 0 ->
        WaitStatus.WEXITSTATUS p status = 42 ->
        let r := invoke h p (a0 :: "fork-exit" :: "42" :: rest) w in
        let line :=
          "OK pid=" +++ fmt_d (fst (sys h Getpid w2)) +++ " child="
          +++ fmt_d (Z.pos c) +++ " child_exit=42" in
        prints_line r line
        /\ is_ok_line line = true
        /\ field "child_exit" line = Some "42"
        /\ field "exit" line = None
        /\ exit_status r = 0).
Proof.
  split.
  - intros k Hslots Hfate. cbv zeta. unfold invoke.
    rewrite main_fork_exit. change (atoi "42") with 42.
    unfold fork_exit_body. run. unfold do_fork.
    destruct (k_slots k) as [|slots]; [contradiction|]. run.
    unfold do_wait. cbn [k_zombies reap]. run. rewrite Pos.eqb_refl. run.
    rewrite Pos.eqb_refl. run. rewrite Hfate.
    replace (WaitStatus.WIFEXITED p (child_status None 42)) with 1
      by (destruct p; reflexivity).
    replace (WaitStatus.WEXITSTATUS p (child_status None 42)) with 42
      by (destruct p; reflexivity).
    run. change (fmt_d 42) with "42".
    repeat split.
    + show_output. norm_append. reflexivity.
    + show_output. rewrite <- lines_no_nl by no_nl_tac.
      norm_append. reflexivity.
    + unfold field. plain_digits. split_tokens. reflexivity.
    + unfold field. plain_digits. split_tokens. reflexivity.
  - intros W h w c wc w2 join status Hfork Hwait Hexited Hcode.
    cbv zeta. unfold invoke.
    rewrite main_fork_exit. change (atoi "42") with 42.
    unfold fork_exit_body. run.
    rewrite Hfork. run. rewrite Hwait. run. rewrite Pos.eqb_refl. run.
    destruct (sys h Getpid w2) as [pid w3]. run.
    destruct (Z.eqb_spec (WaitStatus.WIFEXITED p status) 0) as [E|_];
      [contradiction|].
    rewrite Hcode. run. change (fmt_d 42) with "42".
    repeat split.
    + show_output. norm_append. reflexivity.
    + show_output. rewrite <- lines_no_nl by no_nl_tac.
      norm_append. reflexivity.
    + unfold field. plain_digits. split_tokens. reflexivity.
    + unfold field. plain_digits. split_tokens. reflexivity.
Qed.

(* ================================================================== *)
(** ** The theorems at concrete invocations *)
(* ================================================================== *)

Lemma wait_words_have_exactly_one_outcome_witness :
  holding Linux (encode Linux (Signaled 9 false)) = 1%nat
  /\ swift_WTERMSIG Linux (encode Linux (Signaled 9 false)) = 9
  /\ holding Darwin (encode Darwin Continued) = 1%nat
  /\ swift_WSTOPSIG Linux (encode Linux (Stopped 19)) = 19.
Proof.
  destruct (wait_words_have_exactly_one_outcome Linux (Signaled 9 false) eq_refl)
    as (H1 & _ & _ & H2 & _).
  destruct (wait_words_have_exactly_one_outcome Darwin Continued eq_refl)
    as (H3 & _).
  destruct (wait_words_have_exactly_one_outcome Linux (Stopped 19) eq_refl)
    as (_ & _ & _ & H4).
  repeat split; assumption.
Defined.

Lemma double_setsid_detects_second_failure_witness :
  let r := invoke (posix Linux) Linux ["posix-test-helper"; "double-setsid"] member in
  fst (sys (posix Linux) Setsid (snd (sys (posix Linux) Setsid member))) = -1
  /\ prints_line r "OK pid=100 ppid=50 pgid=100 sid=100 exit=0"
  /\ exit_status r = 0.
Proof.
  cbv zeta.
  destruct (double_setsid_detects_second_failure Linux "posix-test-helper" [])
    as (Hposix & _ & Hrun).
  split.
  - apply (Hposix member). reflexivity.
  - apply (Hrun member). reflexivity.
Defined.

Lemma fork_exit_42_reports_child_exit_witness :
  let r := invoke (posix Linux) Linux ["posix-test-helper"; "fork-exit"; "42"] member in
  prints_line r "OK pid=100 child=101 child_exit=42"
  /\ field "child_exit" "OK pid=100 child=101 child_exit=42" = Some "42"
  /\ field "exit" "OK pid=100 child=101 child_exit=42" = None
  /\ exit_status r = 0.
Proof.
  cbv zeta.
  destruct (proj1 (fork_exit_42_reports_child_exit Linux "posix-test-helper" [])
              member)
    as (H1 & _ & H3 & H4 & H5).
  - cbn. lia.
  - reflexivity.
  - repeat split; assumption.
Defined.

Lemma setpgid_commands_verify_group_leadership_witness :
  prints_ok (invoke (posix Linux) Linux ["posix-test-helper"; "become-group-leader"] member)
  /\ prints_ok (invoke (posix Linux) Linux ["posix-test-helper"; "setpgid-explicit"] member)
  /\ prints_line
       (invoke (posix Linux) Linux ["posix-test-helper"; "become-group-leader"] leader)
       "ERR errno=1 msg=setpgid_failed"
  /\ prints_line
       (invoke (posix Linux) Linux ["posix-test-helper"; "setpgid-explicit"] leader)
       "ERR errno=1 msg=setpgid_explicit_failed".
Proof.
  destruct (setpgid_commands_verify_group_leadership Linux "posix-test-helper" [])
    as (Hposix & Hleader & Hexplicit).
  destruct (Hposix member) as [H0 Hp].
  split; [|split; [|split]].
  - apply H0. reflexivity.
  - apply Hp. reflexivity.
  - apply (Hleader kernel (posix Linux) leader). vm_compute. discriminate.
  - apply (Hexplicit kernel (posix Linux) leader). vm_compute. discriminate.
Defined.

Lemma exit_prints_code_and_exits_with_its_low_byte_witness :
  process_exit_status
    (invoke (posix Linux) Linux ["posix-test-helper"; "exit"; "42"] member) = 42.
Proof.
  destruct (exit_prints_code_and_exits_with_its_low_byte (posix Linux) Linux
              member "posix-test-helper" "42" []) as (_ & _ & _ & _ & _ & H).
  apply (proj2 H). vm_compute. split; discriminate.
Defined.

Lemma verify_parent_ok_iff_ppid_matches_witness :
  prints_ok (invoke (posix Linux) Linux ["posix-test-helper"; "verify-parent"; "50"] member)
  /\ prints_line
       (invoke (posix Linux) Linux ["posix-test-helper"; "verify-parent"; "51"] member)
       "ERR errno=0 msg=ppid_mismatch expected=51 actual=50".
Proof.
  split.
  - apply (proj1 (verify_parent_ok_iff_ppid_matches (posix Linux) Linux member
                    "posix-test-helper" "50" [])).
    reflexivity.
  - apply (proj2 (verify_parent_ok_iff_ppid_matches (posix Linux) Linux member
                    "posix-test-helper" "51" [])).
    vm_compute. discriminate.
Defined.

Lemma recognized_commands_print_one_line_witness :
  (prints_ok (invoke (posix Linux) Linux ["posix-test-helper"; "create-session"] member)
   \/ prints_err (invoke (posix Linux) Linux ["posix-test-helper"; "create-session"] member))
  /\ output (invoke (posix Linux) Linux ["posix-test-helper"; "verify-parent"] member) = ""
  /\ errors (invoke (posix Linux) Linux ["posix-test-helper"; "frobnicate"] member)
     = "Unknown command: frobnicate" +++ nl
  /\ exit_status (invoke (posix Linux) Linux ["posix-test-helper"] member) = 1.
Proof.
  split; [|split; [|split]].
  - destruct (recognized_commands_print_one_line (posix Linux) Linux member
                "posix-test-helper" "create-session" []) as (H & _).
    apply H; [reflexivity|]. left. vm_compute. discriminate.
  - destruct (recognized_commands_print_one_line (posix Linux) Linux member
                "posix-test-helper" "verify-parent" []) as (_ & H & _).
    apply H; reflexivity.
  - destruct (recognized_commands_print_one_line (posix Linux) Linux member
                "posix-test-helper" "frobnicate" []) as (_ & _ & H & _).
    apply H. reflexivity.
  - destruct (recognized_commands_print_one_line (posix Linux) Linux member
                "posix-test-helper" "exit" []) as (_ & _ & _ & H).
    apply (H ["posix-test-helper"]). cbn. lia.
Defined.

Lemma fork_exit_succeeds_whatever_the_child_did_witness :
  let r := invoke (posix Linux) Linux ["posix-test-helper"; "fork-exit"; "7"] doomed in
  exit_status r = 0
  /\ prints_line r "OK pid=100 child=101 child_exit=-1".
Proof.
  cbv zeta.
  edestruct (fork_exit_succeeds_whatever_the_child_did (posix Linux) Linux doomed
               "posix-test-helper" ["7"]) as [H0 H1].
  - reflexivity.
  - reflexivity.
  - split; [exact H0|]. apply H1. reflexivity.
Defined.


(* ================================================================== *)
(** ** More on the wait-status wrappers of shim.h *)
(* ================================================================== *)

Lemma glibc_signaled_iff (s : Z) :
  WaitStatus.Glibc.WIFSIGNALED s
  = Z.b2z (negb (Z.land s 127 =? 127) && negb (Z.land s 127 =? 0)).
Proof.
  destruct (glibc_predicates s) as (_ & -> & _). rewrite land_127.
  pose proof (Z.mod_pos_bound s 128 ltac:(lia)) as B.
  destruct (Z.leb_spec 1 (s mod 128)), (Z.leb_spec (s mod 128) 126),
    (Z.eqb_spec (s mod 128) 127), (Z.eqb_spec (s mod 128) 0);
    cbn [andb negb]; try reflexivity; exfalso; lia.
Qed.

Lemma signaled_by_termsig (p : platform) (s : Z) :
  swift_WIFSIGNALED p s
  = Z.b2z (negb (Z.land s 127 =? 127) && negb (Z.land s 127 =? 0)).
Proof.
  destruct p; unfold swift_WIFSIGNALED; cbn [WaitStatus.WIFSIGNALED];
    [apply glibc_signaled_iff|reflexivity].
Qed.

(** X1: On Linux and on Darwin the wrappers that describe a terminated process
    give the same answer for every status word. *)
Theorem termination_wrappers_agree_across_platforms (status : Z) :
  swift_WIFEXITED Linux status = swift_WIFEXITED Darwin status
  /\ swift_WEXITSTATUS Linux status = swift_WEXITSTATUS Darwin status
  /\ swift_WIFSIGNALED Linux status = swift_WIFSIGNALED Darwin status
  /\ swift_WTERMSIG Linux status = swift_WTERMSIG Darwin status
  /\ swift_WCOREDUMP Linux status = swift_WCOREDUMP Darwin status.
Proof.
  repeat split; try reflexivity.
  - unfold swift_WEXITSTATUS. rewrite !WEXITSTATUS_byte. reflexivity.
  - rewrite !signaled_by_termsig. reflexivity.
Qed.

(** X2: The wrappers for a stopped or continued process are platform-specific:
    Linux reports a continue for the word [0xffff] only, Darwin for the
    words [0x137f] and [0x13ff] only, so no word is a continue on both; and
    [swift_WSTOPSIG] is the exit-status byte on Linux but the unmasked
    [status >> 8] on Darwin, the two agreeing only for words of 16 bits. *)
Theorem stop_wrappers_are_platform_specific (status : Z) :
  (swift_WIFCONTINUED Linux status <> 0 <-> status = 0xffff)
  /\ (swift_WIFCONTINUED Darwin status <> 0 <-> status = 0x137f \/ status = 0x13ff)
  /\ ~ (swift_WIFCONTINUED Linux status <> 0 /\ swift_WIFCONTINUED Darwin status <> 0)
  /\ swift_WSTOPSIG Linux status = swift_WEXITSTATUS Linux status
  /\ (swift_WSTOPSIG Darwin status = swift_WEXITSTATUS Darwin status
      <-> 0 <= status < 65536).
Proof.
  assert (L : swift_WIFCONTINUED Linux status <> 0 <-> status = 0xffff).
  { unfold swift_WIFCONTINUED. cbn [WaitStatus.WIFCONTINUED].
    unfold WaitStatus.Glibc.WIFCONTINUED, WaitStatus.Glibc.W_CONTINUED.
    destruct (Z.eqb_spec status 0xffff); cbn [Z.b2z]; split; intros H;
      first [ assumption | discriminate | contradiction | congruence ]. }
  assert (D : swift_WIFCONTINUED Darwin status <> 0
              <-> status = 0x137f \/ status = 0x13ff).
  { unfold swift_WIFCONTINUED. cbn [WaitStatus.WIFCONTINUED].
    unfold WaitStatus.Xnu.WIFCONTINUED, WaitStatus.Xnu.WSTATUS,
      WaitStatus.Xnu.WSTOPPED, WaitStatus.Xnu.WSTOPSIG.
    rewrite land_127, Z.shiftr_div_pow2 by lia. change (2 ^ 8) with 256.
    destruct (Z.eqb_spec (status mod 128) 127) as [E|E],
      (Z.eqb_spec (status / 256) 19) as [F|F]; cbn [andb Z.b2z]; split; intros H;
      try discriminate; try contradiction; try congruence;
      try (exfalso; revert E F; destruct H; subst; vm_compute; congruence);
      try (revert E F; Z.div_mod_to_equations; lia). }
  split; [exact L|]. split; [exact D|]. split.
  { intros [H1 H2]. apply L in H1. apply D in H2. subst status.
    destruct H2; discriminate. }
  split; [reflexivity|].
  unfold swift_WSTOPSIG, swift_WEXITSTATUS.
  cbn [WaitStatus.WSTOPSIG]. unfold WaitStatus.Xnu.WSTOPSIG.
  rewrite WEXITSTATUS_byte, Z.shiftr_div_pow2 by lia. change (2 ^ 8) with 256.
  split; intros H; Z.div_mod_to_equations; lia.
Qed.

(** X3: On both platforms [swift_WTERMSIG] is the low seven bits of the word,
    a number in 0..127; [swift_WIFEXITED] answers 1 exactly when it is 0 and
    [swift_WIFSIGNALED] answers 1 exactly when it is in 1..126, and both
    answer 0 otherwise. *)
Theorem termsig_decides_exited_and_signaled (p : platform) (status : Z) :
  let sig := swift_WTERMSIG p status in
  0 <= sig <= 127
  /\ swift_WIFEXITED p status = (if sig =? 0 then 1 else 0)
  /\ swift_WIFSIGNALED p status = (if (1 <=? sig) && (sig <=? 126) then 1 else 0).
Proof.
  cbv zeta.
  assert (T : swift_WTERMSIG p status = status mod 128).
  { destruct p; unfold swift_WTERMSIG; cbn [WaitStatus.WTERMSIG];
      unfold WaitStatus.Glibc.WTERMSIG, WaitStatus.Xnu.WTERMSIG,
        WaitStatus.Xnu.WSTATUS; apply land_127. }
  rewrite T. pose proof (Z.mod_pos_bound status 128 ltac:(lia)) as B.
  split; [lia|]. split.
  - destruct p; unfold swift_WIFEXITED; cbn [WaitStatus.WIFEXITED];
      unfold WaitStatus.Glibc.WIFEXITED, WaitStatus.Glibc.WTERMSIG,
        WaitStatus.Xnu.WIFEXITED, WaitStatus.Xnu.WSTATUS;
      rewrite land_127; destruct (status mod 128 =? 0); reflexivity.
  - rewrite signaled_by_termsig, land_127.
    destruct (Z.eqb_spec (status mod 128) 127), (Z.eqb_spec (status mod 128) 0),
      (Z.leb_spec 1 (status mod 128)), (Z.leb_spec (status mod 128) 126);
      cbn [andb negb Z.b2z]; try reflexivity; exfalso; lia.
Qed.

Lemma land_128 (s : Z) : Z.land s 128 = if Z.testbit s 7 then 128 else 0.
Proof.
  apply Z.bits_inj'. intros n Hn. rewrite Z.land_spec.
  destruct (Z.eq_dec n 7) as [->|N].
  - destruct (Z.testbit s 7); reflexivity.
  - replace (Z.testbit 128 n) with false.
    + rewrite andb_false_r. destruct (Z.testbit s 7);
        [|symmetry; apply Z.bits_0].
      symmetry. change 128 with (2 ^ 7). apply Z.pow2_bits_false. congruence.
    + symmetry. change 128 with (2 ^ 7). apply Z.pow2_bits_false. congruence.
Qed.

Lemma coredump_bit (p : platform) (s : Z) :
  swift_WCOREDUMP p s = if Z.testbit s 7 then 128 else 0.
Proof.
  destruct p; unfold swift_WCOREDUMP; cbn [WaitStatus.WCOREDUMP];
    unfold WaitStatus.Glibc.WCOREDUMP, WaitStatus.Xnu.WCOREDUMP; apply land_128.
Qed.

(** X4: [swift_WCOREDUMP] returns the core flag unnormalised: 128 when bit 7 of
    the word is set and 0 otherwise, never 1; a word that is a stop on
    Linux never has the flag. *)
Theorem coredump_flag_is_bit_seven (p : platform) (status : Z) :
  swift_WCOREDUMP p status = (if Z.testbit status 7 then 128 else 0)
  /\ swift_WCOREDUMP p status <> 1
  /\ (swift_WIFSTOPPED Linux status <> 0 -> swift_WCOREDUMP p status = 0).
Proof.
  rewrite coredump_bit. split; [reflexivity|]. split.
  - destruct (Z.testbit status 7); discriminate.
  - unfold swift_WIFSTOPPED. cbn [WaitStatus.WIFSTOPPED].
    unfold WaitStatus.Glibc.WIFSTOPPED.
    destruct (Z.eqb_spec (Z.land status 255) 127) as [E|E];
      [intros _|intros H; contradiction H; reflexivity].
    replace (Z.testbit status 7) with (Z.testbit (Z.land status 255) 7).
    + rewrite E. reflexivity.
    + rewrite Z.land_spec. change (Z.testbit 255 7) with true.
      apply andb_true_r.
Qed.

(** X5: The status word of a normal exit decodes, on both platforms, as exited
    and nothing else, with the low eight bits of the code as exit status;
    a code in 0..255 comes back unchanged. *)
Theorem normal_exit_round_trip (p : platform) (code : Z) :
  let status := WaitStatus.W_EXITCODE code in
  swift_WIFEXITED p status = 1
  /\ swift_WEXITSTATUS p status = code mod 256
  /\ (0 <= code <= 255 -> swift_WEXITSTATUS p status = code)
  /\ swift_WIFSIGNALED p status = 0
  /\ swift_WIFSTOPPED p status = 0
  /\ swift_WIFCONTINUED p status = 0
  /\ swift_WCOREDUMP p status = 0.
Proof.
  cbv zeta. destruct (W_EXITCODE_decodes p code) as [E S].
  assert (V : WaitStatus.W_EXITCODE code = code mod 256 * 256).
  { unfold WaitStatus.W_EXITCODE. rewrite land_255, Z.shiftl_mul_pow2 by lia.
    reflexivity. }
  pose proof (Z.mod_pos_bound code 256 ltac:(lia)) as B.
  assert (H1 : holding p (WaitStatus.W_EXITCODE code) = 1%nat).
  { destruct p; [|apply holding_darwin]. rewrite holding_linux.
    replace (Z.land (WaitStatus.W_EXITCODE code) 255 =? 255) with false;
      [reflexivity|].
    symmetry. apply Z.eqb_neq. rewrite V, land_255.
    Z.div_mod_to_equations. lia. }
  rewrite holding_unfold, E in H1. cbn [Z.eqb negb Nat.b2n Nat.add] in H1.
  split; [exact E|]. split; [exact S|]. split.
  { intros R. rewrite S. apply Z.mod_small. lia. }
  assert (Z0 : forall x : Z, Nat.b2n (negb (x =? 0)) = 0%nat -> x = 0).
  { intros x. destruct (Z.eqb_spec x 0); [trivial|discriminate]. }
  split; [apply Z0; lia|]. split; [apply Z0; lia|]. split; [apply Z0; lia|].
  rewrite coredump_bit, V.
  replace (Z.testbit (code mod 256 * 256) 7) with false; [reflexivity|].
  symmetry. change 256 with (2 ^ 8). rewrite Z.mul_pow2_bits_low by lia.
  reflexivity.
Qed.

(* ================================================================== *)
(** ** More on the commands of main.c *)
(* ================================================================== *)

Section MoreCommands.
Context {W : Type}.
Variable h : os W.
Variable p : platform.

(** X6: [create-session], against any operating system: a positive return of
    [setsid] gives the [OK] line and exit status 0; any other return, 0
    included, gives [ERR errno=<errno> msg=setsid_failed] and exit status 1.
    Nothing goes to standard error. *)
Theorem create_session_follows_setsid
    (w : W) (a0 : string) (rest : list string) :
  let sid := fst (sys h Setsid w) in
  let w1 := snd (sys h Setsid w) in
  let r := invoke h p (a0 :: "create-session" :: rest) w in
  (0 < sid -> prints_line r (report h w1 "OK" 0) /\ exit_status r = 0)
  /\ (sid <= 0 ->
      let line := error_line (errno_of h w1) "setsid_failed" in
      prints_line r line
      /\ field "errno" line = Some (fmt_d (errno_of h w1))
      /\ field "msg" line = Some "setsid_failed"
      /\ exit_status r = 1)
  /\ errors r = "".
Proof.
  cbv zeta. unfold invoke. rewrite main_create_session. run.
  destruct (sys h Setsid w) as [sid w1]. run.
  destruct (Z.ltb_spec 0 sid) as [S|S]; run.
  - split; [|split; [intros H; lia|reflexivity]].
    intros _. split; [|reflexivity].
    apply prints_line_intro; [|apply report_no_nl]. show_output. reflexivity.
  - split; [intros H; lia|]. split; [|reflexivity].
    intros _. split; [|split; [apply error_line_errno_field; reflexivity|split]].
    + apply error_line_prints; [|reflexivity]. show_output. reflexivity.
    + unfold field, error_line. plain_digits. split_tokens. reflexivity.
    + reflexivity.
Qed.

(** X7: [stop-exit] is [exit] run after the stop: what [raise(SIGSTOP)] returns
    is ignored, and the line and the exit status are those [exit] gives in
    the state the process is continued in. *)
Theorem stop_exit_is_exit_after_the_stop
    (w : W) (a0 : string) (rest : list string) :
  invoke h p (a0 :: "stop-exit" :: rest) w
  = invoke h p (a0 :: "exit" :: rest) (snd (sys h (Raise (SIGSTOP p)) w)).
Proof.
  unfold invoke.
  destruct rest as [|code rest'];
    [rewrite main_stop_exit_default, main_exit_default
    |rewrite main_stop_exit, main_exit];
    run; destruct (sys h (Raise (SIGSTOP p)) w) as [ret w1]; run; reflexivity.
Qed.

(** X8: The failure paths of [fork-exit], against any operating system: when
    [fork] fails the helper prints [ERR errno=<errno> msg=fork_failed] and
    exits 1; when [waitpid] returns anything but the child's pid, another
    pid included, it prints [ERR errno=<errno> msg=waitpid_failed] and
    exits 1, whatever the status word holds. *)
Theorem fork_exit_failure_paths
    (w : W) (a0 : string) (rest : list string) :
  let code := match rest with a :: _ => atoi a | [] => 0 end in
  let r := invoke h p (a0 :: "fork-exit" :: rest) w in
  (forall w1 : W,
      sys_fork h w = ForkFailed w1 ->
      prints_line r (error_line (errno_of h w1) "fork_failed")
      /\ exit_status r = 1 /\ kern (snd r) = w1)
  /\ (forall (c : positive) (wc w2 : W) (join : Z -> W -> W) (ret status : Z),
        sys_fork h w = Forked c wc join ->
        sys_wait h (Z.pos c) 0 (join code wc) = (ret, status, w2) ->
        ret <> Z.pos c ->
        prints_line r (error_line (errno_of h w2) "waitpid_failed")
        /\ exit_status r = 1 /\ kern (snd r) = w2).
Proof.
  cbv zeta. unfold invoke. rewrite main_fork_exit_any.
  generalize (match rest with a :: _ => atoi a | [] => 0 end). clear rest.
  intros code. unfold fork_exit_body. split.
  - intros w1 Hfork. run. rewrite Hfork. run.
    split; [|split; reflexivity].
    apply error_line_prints; [|reflexivity]. show_output. reflexivity.
  - intros c wc w2 join ret status Hfork Hwait Hret. run.
    rewrite Hfork. run. rewrite Hwait. run.
    destruct (Z.eqb_spec ret (Z.pos c)) as [E|E]; [contradiction|]. run.
    split; [|split; reflexivity].
    apply error_line_prints; [|reflexivity]. show_output. reflexivity.
Qed.
End MoreCommands.

(* ================================================================== *)
(** ** Invariants of every invocation *)
(* ================================================================== *)

Ltac ok_line_goal :=
  apply prints_ok_check;
  [ show_output;
    first [ eapply proj1, report_line | unfold error_line; one_line_tac ]
  | show_output; first [ eapply proj2, report_line | reflexivity ] ].

Ltac err_line_goal :=
  apply prints_err_check;
  [ show_output; unfold error_line; one_line_tac | show_output; reflexivity ].

Ltac verdict_leaf :=
  first
    [ left; split; [ok_line_goal|];
      split; [reflexivity|]; first [ left; reflexivity | right; tauto ]
    | right; left; split; [err_line_goal|]; split; reflexivity
    | right; right; split; [reflexivity|]; split; [discriminate|reflexivity] ].

Section Verdict.
Context {W : Type}.
Variable h : os W.
Variable p : platform.

Lemma prints_ok_not_empty (r : Z * process W) : prints_ok r -> output r <> "".
Proof. intros (l & [E _] & _). rewrite E. destruct l; discriminate. Qed.

Lemma prints_err_not_empty (r : Z * process W) : prints_err r -> output r <> "".
Proof. intros (l & [E _] & _). rewrite E. destruct l; discriminate. Qed.

Lemma prints_ok_not_err (r : Z * process W) : prints_ok r -> prints_err r -> False.
Proof.
  intros (l & [_ L] & T) (l' & [_ L'] & T'). rewrite L in L'.
  injection L' as <-. unfold is_ok_line, is_err_line in *.
  apply String.eqb_eq in T, T'. rewrite T in T'. discriminate T'.
Qed.

(** Every run ends in one of three ways. *)
Lemma verdict (w : W) (argv : list string) :
  let r := invoke h p argv w in
  let cmd := List.nth 1 argv "" in
  (prints_ok r /\ errors r = ""
   /\ (exit_status r = 0 \/ cmd = "exit" \/ cmd = "stop-exit"))
  \/ (prints_err r /\ errors r = "" /\ exit_status r = 1)
  \/ (output r = "" /\ errors r <> "" /\ exit_status r = 1).
Proof.
  cbv zeta. unfold invoke.
  destruct argv as [|a0 [|cmd rest]];
    [rewrite main_no_command by (cbn; lia); verdict_leaf
    |rewrite main_no_command by (cbn; lia); verdict_leaf|].
  cbn [List.nth].
  destruct (recognized cmd) eqn:R.
  - apply recognized_cases in R.
    destruct R as [->|[->|[->|[->|[->|[->|[->| ->]]]]]]].
    + destruct rest as [|arg rest'];
        [rewrite main_exit_default|rewrite main_exit]; crunch; verdict_leaf.
    + destruct rest as [|arg rest'];
        [rewrite main_stop_exit_default|rewrite main_stop_exit];
        crunch; verdict_leaf.
    + destruct rest as [|arg rest'];
        [rewrite main_verify_parent_missing|rewrite main_verify_parent];
        crunch; verdict_leaf.
    + rewrite main_create_session. crunch; verdict_leaf.
    + rewrite main_double_setsid. crunch; verdict_leaf.
    + rewrite main_become_group_leader. crunch; verdict_leaf.
    + rewrite main_setpgid_explicit. crunch; verdict_leaf.
    + rewrite main_fork_exit_any. unfold fork_exit_body. crunch; verdict_leaf.
  - rewrite main_unknown by assumption. verdict_leaf.
Qed.

(** X9: For every command line whose command is neither [exit] nor
    [stop-exit], and against any operating system, the exit status is 0 or
    1, and it is 0 exactly when the helper printed an [OK] line. *)
Theorem exit_status_tells_ok (w : W) (argv : list string) :
  List.nth 1 argv "" <> "exit" ->
  List.nth 1 argv "" <> "stop-exit" ->
  let r := invoke h p argv w in
  (exit_status r = 0 \/ exit_status r = 1)
  /\ (exit_status r = 0 <-> prints_ok r).
Proof.
  intros N1 N2. cbv zeta.
  destruct (verdict w argv) as [(K & _ & [E|[E|E]])|[(K & _ & E)|(K & _ & E)]];
    try contradiction.
  - split; [left; exact E|]. split; intros _; assumption.
  - split; [right; exact E|]. split; intros H.
    + rewrite E in H. discriminate H.
    + exfalso. exact (prints_ok_not_err _ H K).
  - split; [right; exact E|]. split; intros H.
    + rewrite E in H. discriminate H.
    + exfalso. exact (prints_ok_not_empty _ H K).
Qed.

(** X10: Every invocation, against any operating system, writes to exactly one
    of the two streams: either one protocol line on standard output and
    nothing on standard error, or a message on standard error, nothing on
    standard output and exit status 1. *)
Theorem writes_to_exactly_one_stream (w : W) (argv : list string) :
  let r := invoke h p argv w in
  (output r = "" <-> errors r <> "")
  /\ (errors r = "" -> prints_ok r \/ prints_err r)
  /\ (errors r <> "" -> exit_status r = 1).
Proof.
  cbv zeta.
  destruct (verdict w argv) as [(K & E & _)|[(K & E & _)|(K & E & S)]].
  - pose proof (prints_ok_not_empty _ K). repeat split; intros; try tauto; congruence.
  - pose proof (prints_err_not_empty _ K). repeat split; intros; try tauto; congruence.
  - repeat split; intros; try tauto; congruence.
Qed.
End Verdict.

(** X11: [main] reads [argv[1]] and at most [argv[2]]: the program name and any
    further argument never change what it does, and the four commands that
    take no argument ignore [argv[2]] as well. *)
Theorem only_command_and_first_argument_matter
    (p : platform) (a0 b0 cmd arg : string) (rest rest' : list string) :
  main p (a0 :: cmd :: arg :: rest) = main p (b0 :: cmd :: arg :: rest')
  /\ main p [a0; cmd] = main p [b0; cmd]
  /\ main p [a0] = main p []
  /\ (cmd = "create-session" \/ cmd = "double-setsid"
      \/ cmd = "become-group-leader" \/ cmd = "setpgid-explicit" ->
      main p (a0 :: cmd :: arg :: rest) = main p [b0; cmd]).
Proof.
  split; [|split; [|split]].
  - unfold main. cbv zeta. rewrite !argc_lt2, !argc_lt3, !argc_ge3. reflexivity.
  - reflexivity.
  - reflexivity.
  - intros [->|[->|[->| ->]]].
    + rewrite !main_create_session. reflexivity.
    + rewrite !main_double_setsid. reflexivity.
    + rewrite !main_become_group_leader. reflexivity.
    + rewrite !main_setpgid_explicit. reflexivity.
Qed.

Lemma only_command_and_first_argument_matter_witness :
  main Linux ["a"; "double-setsid"; "x"; "y"] = main Linux ["b"; "double-setsid"].
Proof.
  apply (only_command_and_first_argument_matter Linux "a" "b" "double-setsid"
           "x" ["y"] []).
  right. left. reflexivity.
Defined.

(** X12: The usage text advertises exactly the commands [main] dispatches
    on: after its two heading lines it has eight lines, and a word is the
    first word of one of them exactly when [main], given that word as
    command, does not fall through to its unknown-command branch. *)
Theorem usage_lists_the_dispatched_commands
    (p : platform) (W : Type) (h : os W) (w : W)
    (a0 cmd : string) (rest : list string) :
  let text := errors (invoke h p [] w) in
  let advertised := List.map first_word (List.skipn 2 (Protocol.lines text)) in
  List.length advertised = 8%nat
  /\ (List.In cmd advertised
      <-> main p (a0 :: cmd :: rest)
          <> (fprintf_stderr ("Unknown command: " +++ cmd +++ nl) ;; Ret 1)%prog).
Proof.
  cbv zeta.
  change (List.map first_word
            (List.skipn 2 (Protocol.lines (errors (invoke h p [] w)))))
    with [ "exit"; "stop-exit"; "verify-parent"; "create-session";
           "double-setsid"; "become-group-leader"; "setpgid-explicit";
           "fork-exit" ].
  split; [reflexivity|]. split.
  - cbn [List.In]. intros H E.
    repeat (destruct H as [<-|H]; [|]); try contradiction.
    + destruct rest; [rewrite main_exit_default in E|rewrite main_exit in E];
        discriminate E.
    + destruct rest;
        [rewrite main_stop_exit_default in E|rewrite main_stop_exit in E];
        discriminate E.
    + destruct rest;
        [rewrite main_verify_parent_missing in E|rewrite main_verify_parent in E];
        discriminate E.
    + rewrite main_create_session in E. discriminate E.
    + rewrite main_double_setsid in E. discriminate E.
    + rewrite main_become_group_leader in E. discriminate E.
    + rewrite main_setpgid_explicit in E. discriminate E.
    + rewrite main_fork_exit_any in E. discriminate E.
  - intros N. destruct (recognized cmd) eqn:R.
    + apply recognized_cases in R. cbn [List.In]. intuition (subst; auto 10).
    + exfalso. apply N. apply main_unknown, R.
Qed.

(* ================================================================== *)
(** ** What the helper prints, read back *)
(* ================================================================== *)

Lemma digits_acc (u : Decimal.uint) (a : positive) :
  digits (Z.pos a) (NilEmpty.string_of_uint u) = Z.pos (Pos.of_uint_acc u a).
Proof.
  revert a. induction u as [|u IH|u IH|u IH|u IH|u IH|u IH|u IH|u IH|u IH|u IH];
    intros a; [reflexivity|..];
    cbn [NilEmpty.string_of_uint digits Pos.of_uint_acc];
    match goal with
    | |- context [digit_of ?c] =>
        let v := eval vm_compute in (digit_of c) in change (digit_of c) with v
    end; cbv iota beta; rewrite <- IH; f_equal; lia.
Qed.

Lemma digits_uint (u : Decimal.uint) :
  digits 0 (NilEmpty.string_of_uint u) = Z.of_uint u.
Proof.
  unfold Z.of_uint.
  induction u as [|u IH|u IH|u IH|u IH|u IH|u IH|u IH|u IH|u IH|u IH];
    [reflexivity|exact IH|..];
    cbn [NilEmpty.string_of_uint digits Pos.of_uint];
    match goal with
    | |- context [digit_of ?c] =>
        let v := eval vm_compute in (digit_of c) in change (digit_of c) with v
    end; cbv iota beta; apply digits_acc.
Qed.

(** [strtol] reads back what ["%d"] wrote, before any saturation. *)
Lemma strtol10_fmt_d (z : Z) :
  strtol10 (fmt_d z) = Z.max LONG_MIN (Z.min LONG_MAX z).
Proof.
  unfold strtol10. f_equal. f_equal.
  rewrite <- (DecimalZ.of_to z) at 2.
  unfold fmt_d, NilZero.string_of_int, Z.of_int.
  destruct (Z.to_int z) as [u|u].
  - rewrite <- digits_uint. destruct u; reflexivity.
  - rewrite <- digits_uint. destruct u; reflexivity.
Qed.

Lemma atoi_fmt_d (z : Z) : - 2 ^ 31 <= z < 2 ^ 31 -> atoi (fmt_d z) = z.
Proof.
  intros R. unfold atoi. rewrite strtol10_fmt_d.
  unfold LONG_MIN, LONG_MAX, to_int.
  rewrite Z.min_r, Z.max_r by lia.
  rewrite Z.mod_small by lia. lia.
Qed.

Section ReadBack.
Context {W : Type}.
Variable h : os W.
Variable p : platform.

(** X13: [print_status], against any operating system and for any tag that is
    one word: it asks for pid, parent pid, group and session in that order,
    flushes what was buffered and then its own line, and each of the five
    fields of the line reads back as the decimal it was given. *)
Theorem print_status_line_reads_back
    (s : process W) (tag : string) (code ret : Z) :
  plain tag = true ->
  key_value tag = None ->
  let '(pid, ppid, pgid, sid) := fst (query_identity h (kern s)) in
  let line := status_line tag pid ppid pgid sid code in
  exec h (print_status tag code ;; Ret ret) s
  = (ret, mkProcess (snd (query_identity h (kern s))) ""
            (stdout s +++ buffered s +++ line +++ nl) (stderr s))
  /\ lines (line +++ nl) = [line]
  /\ Protocol.tag line = tag
  /\ field "pid" line = Some (fmt_d pid)
  /\ field "ppid" line = Some (fmt_d ppid)
  /\ field "pgid" line = Some (fmt_d pgid)
  /\ field "sid" line = Some (fmt_d sid)
  /\ field "exit" line = Some (fmt_d code).
Proof.
  intros Hplain Hkey.
  pose proof (exec_print_status h tag code (Ret ret) s) as E.
  unfold report in E.
  destruct (fst (query_identity h (kern s))) as [[[pid ppid] pgid] sid].
  cbv zeta.
  assert (T : tokens (status_line tag pid ppid pgid sid code)
              = [ tag; "pid=" +++ fmt_d pid; "ppid=" +++ fmt_d ppid;
                  "pgid=" +++ fmt_d pgid; "sid=" +++ fmt_d sid;
                  "exit=" +++ fmt_d code ]).
  { unfold status_line. plain_digits. cbn [append].
    rewrite tokens_word by assumption. split_tokens. reflexivity. }
  split; [|split; [|split]].
  - rewrite E. cbn [exec]. unfold flush. cbn [kern stdout buffered stderr].
    rewrite append_nil_r. reflexivity.
  - apply lines_no_nl. unfold status_line.
    rewrite no_nl_app, (plain_no_nl _ Hplain). no_nl_tac.
  - unfold Protocol.tag. rewrite T. reflexivity.
  - unfold field. rewrite T. cbn [List.map lookup]. rewrite Hkey.
    repeat split; reflexivity.
Qed.

(** X14: [print_error], against any operating system: it makes no system call,
    flushes what was buffered and then its own line, and for a message of
    one word the line is an [ERR] line whose [errno] and [msg] fields read
    back as given. *)
Theorem print_error_line_reads_back
    (s : process W) (err : Z) (msg : string) (ret : Z) :
  let line := error_line err msg in
  exec h (print_error err msg ;; Ret ret) s
  = (ret, mkProcess (kern s) "" (stdout s +++ buffered s +++ line +++ nl) (stderr s))
  /\ (plain msg = true ->
      lines (line +++ nl) = [line]
      /\ is_err_line line = true
      /\ field "errno" line = Some (fmt_d err)
      /\ field "msg" line = Some msg).
Proof.
  cbv zeta. split.
  - rewrite exec_print_error. cbn [exec]. unfold flush.
    cbn [kern stdout buffered stderr]. rewrite append_nil_r. reflexivity.
  - intros Hplain. split; [|split; [reflexivity|split]].
    + apply lines_no_nl, error_line_no_nl, plain_no_nl, Hplain.
    + apply error_line_errno_field, Hplain.
    + unfold field, error_line. plain_digits. split_tokens. reflexivity.
Qed.

(** X15: The helper reads back the pids it prints: for every parent pid that is
    an [int], [verify-parent] given its decimal form prints an [OK] line and
    exits 0, against any operating system. *)
Theorem verify_parent_accepts_the_printed_ppid
    (w : W) (a0 : string) (rest : list string) :
  let ppid := fst (sys h Getppid w) in
  - 2 ^ 31 <= ppid < 2 ^ 31 ->
  let r := invoke h p (a0 :: "verify-parent" :: fmt_d ppid :: rest) w in
  prints_ok r /\ exit_status r = 0 /\ errors r = "".
Proof.
  cbv zeta. intros R. unfold invoke. rewrite main_verify_parent.
  rewrite (atoi_fmt_d _ R). run.
  destruct (sys h Getppid w) as [ppid w1]. run.
  rewrite Z.eqb_refl. run.
  split; [|split; reflexivity]. ok_line_goal.
Qed.
End ReadBack.

(* ================================================================== *)
(** ** The calls the helper makes *)
(* ================================================================== *)

Section Tracing.
Context {W : Type}.
Variable h : os W.

(** Logging changes nothing: a run against [traced h] is the run against
    [h], with the log beside it. *)
Lemma traced_simulates (m : prog Z) :
  forall s : process (W * list event),
    exec h m (erase s)
    = (fst (exec (traced h) m s), erase (snd (exec (traced h) m s))).
Proof.
  induction m as [r|code|c k IH|k IH|k IH|pid options k IH|str k IH|k IH|str k IH];
    intros s; cbn [exec].
  - reflexivity.
  - reflexivity.
  - cbn [traced sys erase kern].
    destruct (sys h c (fst (kern s))) as [r w'].
    apply (IH r (with_kern s (w', snd (kern s) ++ [Called c r]))).
  - apply (IH _ s).
  - cbn [traced sys_fork erase kern].
    destruct (sys_fork h (fst (kern s))) as [w'|child wchild join].
    + apply (IH (-1) (with_kern s (w', snd (kern s) ++ [ForkFailure]))).
    + pose proof (IH 0 (with_kern s (wchild, []))) as C.
      unfold with_kern, erase in C. cbn [kern buffered stdout stderr fst] in C.
      unfold with_kern, erase. cbn [kern buffered stdout stderr fst]. rewrite C.
      destruct (exec (traced h) (k 0)
                  (mkProcess (wchild, []) (buffered s) (stdout s) (stderr s)))
        as [code sc].
      cbn [fst snd erase kern buffered stdout stderr].
      apply (IH (Z.pos child)
               (mkProcess (join code (fst (kern sc)),
                           snd (kern s) ++ [ForkChild child (snd (kern sc)) code])
                  (buffered s) (stdout sc) (stderr sc))).
  - cbn [traced sys_wait erase kern].
    destruct (sys_wait h pid options (fst (kern s))) as [[r status] w'].
    apply (IH r status
             (with_kern s (w', snd (kern s) ++ [Waited pid options r status]))).
  - apply (IH (mkProcess (kern s) (buffered s +++ str) (stdout s) (stderr s))).
  - apply (IH (flush s)).
  - apply (IH (mkProcess (kern s) (buffered s) (stdout s) (stderr s +++ str))).
Qed.

Lemma traced_invoke (p : platform) (argv : list string) (w : W) :
  invoke h p argv w
  = (fst (invoke (traced h) p argv (w, [])),
     erase (snd (invoke (traced h) p argv (w, [])))).
Proof. unfold invoke. apply (traced_simulates (main p argv) (start (w, []))). Qed.
End Tracing.

Ltac trace_step :=
  cbn -[append fmt_d atoi nl WaitStatus.WIFEXITED WaitStatus.WEXITSTATUS].

Ltac trace_crunch :=
  repeat first
         [ progress trace_step
         | match goal with
           | |- context [sys ?h ?c ?w] => destruct (sys h c w) as [? ?]
           | |- context [sys_fork ?h ?w] => destruct (sys_fork h w) as [?|? ? ?]
           | |- context [sys_wait ?h ?a ?b ?w] =>
               destruct (sys_wait h a b w) as [[? ?] ?]
           | |- context [if ?b then _ else _] => destruct b
           end ].

Ltac event_cases :=
  repeat split; intros;
  repeat match goal with
         | H : _ \/ _ |- _ => destruct H as [H|H]
         | H : False |- _ => contradiction
         | H : @eq event _ _ |- _ => inversion H; subst; clear H
         end;
  try discriminate; cbn [List.In]; auto 10.

Section CallDiscipline.
Context {W : Type}.
Variable h : os W.
Variable p : platform.

(** X16: What [fork-exit] asks of the system, against any operating system: a
    failed [fork] is its only call; after a successful one the child makes
    no call at all and terminates with the code of the command line, and the
    parent calls [waitpid] on the child's pid with options 0 and then, only
    if that returned the child's pid, [getpid]. *)
Theorem fork_exit_calls
    (w : W) (a0 : string) (rest : list string) :
  let code := match rest with a :: _ => atoi a | [] => 0 end in
  let t := calls h p (a0 :: "fork-exit" :: rest) w in
  (forall w1 : W, sys_fork h w = ForkFailed w1 -> t = [ForkFailure])
  /\ (forall (c : positive) (wc w2 : W) (join : Z -> W -> W) (ret status : Z),
        sys_fork h w = Forked c wc join ->
        sys_wait h (Z.pos c) 0 (join code wc) = (ret, status, w2) ->
        t = [ForkChild c [] code; Waited (Z.pos c) 0 ret status]
            ++ (if ret =? Z.pos c
                then [Called Getpid (fst (sys h Getpid w2))] else [])).
Proof.
  cbv zeta. unfold calls, invoke. rewrite main_fork_exit_any.
  generalize (match rest with a :: _ => atoi a | [] => 0 end). clear rest.
  intros code. unfold fork_exit_body. split.
  - intros w1 Hfork. trace_step. rewrite Hfork. trace_step. reflexivity.
  - intros c wc w2 join ret status Hfork Hwait. trace_step.
    rewrite Hfork. trace_step. rewrite Hwait. trace_step.
    destruct (Z.eqb_spec ret (Z.pos c)) as [E|E]; trace_step.
    + destruct (sys h Getpid w2) as [pid w3]. reflexivity.
    + reflexivity.
Qed.

(** X17: Which command may do what, for every command line and against any
    operating system: [setsid] and [setpgid] are called only by the four
    session and group commands, [raise] only by [stop-exit] and only with
    [SIGSTOP], [fork] and [waitpid] only by [fork-exit]; so [exit],
    [verify-parent] and an unknown command only ask for ids. *)
Theorem commands_keep_to_their_calls (w : W) (argv : list string) :
  let cmd := List.nth 1 argv "" in
  let t := calls h p argv w in
  (forall (c : call) (ret : Z),
      List.In (Called c ret) t -> changes_identity c = true ->
      List.In cmd [ "create-session"; "double-setsid"; "become-group-leader";
                    "setpgid-explicit" ])
  /\ (forall sig ret : Z,
        List.In (Called (Raise sig) ret) t -> cmd = "stop-exit" /\ sig = SIGSTOP p)
  /\ (List.In ForkFailure t -> cmd = "fork-exit")
  /\ (forall (c : positive) (ev : list event) (code : Z),
        List.In (ForkChild c ev code) t -> cmd = "fork-exit")
  /\ (forall pid options ret status : Z,
        List.In (Waited pid options ret status) t -> cmd = "fork-exit").
Proof.
  cbv zeta. unfold calls, invoke.
  destruct argv as [|a0 [|cmd rest]];
    [rewrite main_no_command by (cbn; lia); trace_crunch;
     repeat split; intros; contradiction
    |rewrite main_no_command by (cbn; lia); trace_crunch;
     repeat split; intros; contradiction|].
  cbn [List.nth].
  destruct (recognized cmd) eqn:R.
  - apply recognized_cases in R.
    destruct R as [->|[->|[->|[->|[->|[->|[->| ->]]]]]]].
    + destruct rest as [|arg rest'];
        [rewrite main_exit_default|rewrite main_exit]; trace_crunch;
        event_cases.
    + destruct rest as [|arg rest'];
        [rewrite main_stop_exit_default|rewrite main_stop_exit]; trace_crunch;
        event_cases.
    + destruct rest as [|arg rest'];
        [rewrite main_verify_parent_missing|rewrite main_verify_parent];
        trace_crunch; event_cases.
    + rewrite main_create_session. trace_crunch; event_cases.
    + rewrite main_double_setsid. trace_crunch; event_cases.
    + rewrite main_become_group_leader. trace_crunch; event_cases.
    + rewrite main_setpgid_explicit. trace_crunch; event_cases.
    + rewrite main_fork_exit_any. unfold fork_exit_body.
      trace_crunch; event_cases.
  - rewrite main_unknown by assumption. trace_crunch.
    repeat split; intros; contradiction.
Qed.
End CallDiscipline.

(* ================================================================== *)
(** ** The commands on the POSIX process model *)
(* ================================================================== *)

Section OnPosix.
Variable p : platform.
Variables (a0 : string) (rest : list string).

Lemma create_session_leader (k : kernel) :
  is_group_leader k = true ->
  invoke (posix p) p (a0 :: "create-session" :: rest) k
  = (1, mkProcess (snd (fail k EPERM)) ""
          (error_line EPERM "setsid_failed" +++ nl) "").
Proof.
  intros L. unfold invoke. rewrite main_create_session. run.
  unfold do_setsid. rewrite L. run. reflexivity.
Qed.

(** X18: [create-session] on a POSIX kernel: a process that is not a group
    leader gets the [OK] line with [pgid] and [sid] equal to its pid and
    leads its group and session afterwards, so that the same command in the
    resulting state fails; a group leader gets
    [ERR errno=1 msg=setsid_failed] and keeps its group and session. *)
Theorem create_session_on_posix (k : kernel) :
  let r := invoke (posix p) p (a0 :: "create-session" :: rest) k in
  let pid := Z.pos (k_pid k) in
  (is_group_leader k = false ->
   prints_line r (status_line "OK" pid (k_ppid k) pid pid 0)
   /\ exit_status r = 0
   /\ is_group_leader (kern (snd r)) = true
   /\ is_session_leader (kern (snd r)) = true
   /\ invoke (posix p) p (a0 :: "create-session" :: rest) (kern (snd r))
      = (1, mkProcess (snd (fail (kern (snd r)) EPERM)) ""
              (error_line EPERM "setsid_failed" +++ nl) ""))
  /\ (is_group_leader k = true ->
      prints_line r (error_line EPERM "setsid_failed")
      /\ exit_status r = 1
      /\ k_pgid (kern (snd r)) = k_pgid k
      /\ k_sid (kern (snd r)) = k_sid k).
Proof.
  cbv zeta. split.
  - intros L.
    assert (E : invoke (posix p) p (a0 :: "create-session" :: rest) k
                = (0, mkProcess
                        (mkKernel (k_pid k) (k_ppid k) (k_pid k) (k_pid k)
                           (k_errno k) (k_gap k) (k_slots k) (k_zombies k)
                           (k_stops k) (k_fate k)) ""
                        (status_line "OK" (Z.pos (k_pid k)) (k_ppid k)
                           (Z.pos (k_pid k)) (Z.pos (k_pid k)) 0 +++ nl) "")).
    { unfold invoke. rewrite main_create_session. run.
      unfold do_setsid. rewrite L. run. unfold flush.
      cbn [kern buffered stdout stderr append]. rewrite append_nil_r.
      reflexivity. }
    rewrite E. cbn [snd kern].
    assert (G : is_group_leader
                  (mkKernel (k_pid k) (k_ppid k) (k_pid k) (k_pid k)
                     (k_errno k) (k_gap k) (k_slots k) (k_zombies k)
                     (k_stops k) (k_fate k)) = true).
    { unfold is_group_leader. cbn [k_pgid k_pid]. apply Pos.eqb_refl. }
    split; [|split; [reflexivity|split; [exact G|split]]].
    + apply prints_line_intro; [reflexivity|apply status_line_no_nl].
    + unfold is_session_leader. cbn [k_sid k_pid]. apply Pos.eqb_refl.
    + apply create_session_leader, G.
  - intros L. rewrite (create_session_leader k L). cbn [snd kern fail].
    split; [|repeat split].
    apply error_line_prints; reflexivity.
Qed.

(** X19: [double-setsid] on a POSIX kernel, for a process that already leads its
    group: the first [setsid] fails, the helper prints
    [ERR errno=1 msg=first_setsid_failed], exits 1 and never tries a second
    time. *)
Theorem double_setsid_of_a_group_leader (k : kernel) :
  is_group_leader k = true ->
  let r := invoke (posix p) p (a0 :: "double-setsid" :: rest) k in
  prints_line r (error_line EPERM "first_setsid_failed")
  /\ exit_status r = 1
  /\ calls (posix p) p (a0 :: "double-setsid" :: rest) k = [Called Setsid (-1)].
Proof.
  intros L. cbv zeta. split; [|split].
  - unfold invoke. rewrite main_double_setsid. run.
    unfold do_setsid. rewrite L. run.
    apply error_line_prints; [|reflexivity]. show_output. reflexivity.
  - unfold invoke. rewrite main_double_setsid. run.
    unfold do_setsid. rewrite L. run. reflexivity.
  - unfold calls, invoke. rewrite main_double_setsid. trace_step.
    unfold do_setsid. rewrite L. trace_step. reflexivity.
Qed.

(** X20: [fork-exit <code>] on a POSIX kernel where [fork] succeeds and the child
    exits normally: the line reports the low eight bits of the code, which
    is the code itself exactly for codes in 0..255; the helper exits 0 and
    has reaped its child. *)
Theorem fork_exit_reports_low_byte (k : kernel) (code : string) :
  k_slots k <> O ->
  k_fate k = None ->
  let r := invoke (posix p) p (a0 :: "fork-exit" :: code :: rest) k in
  let line :=
    "OK pid=" +++ fmt_d (Z.pos (k_pid k)) +++ " child="
    +++ fmt_d (Z.pos (k_pid k + k_gap k)) +++ " child_exit="
    +++ fmt_d (atoi code mod 256) in
  prints_line r line
  /\ field "child_exit" line = Some (fmt_d (atoi code mod 256))
  /\ (atoi code mod 256 = atoi code <-> 0 <= atoi code <= 255)
  /\ exit_status r = 0
  /\ k_zombies (kern (snd r)) = k_zombies k.
Proof.
  intros Hslots Hfate. cbv zeta. unfold invoke.
  rewrite main_fork_exit. generalize (atoi code). intros c.
  unfold fork_exit_body. run. unfold do_fork.
  destruct (k_slots k) as [|slots]; [contradiction|]. run.
  unfold do_wait. cbn [k_zombies reap]. run. rewrite Pos.eqb_refl. run.
  rewrite Pos.eqb_refl. run. rewrite Hfate. cbn [child_status].
  destruct (W_EXITCODE_decodes p c) as [E S].
  unfold swift_WIFEXITED, swift_WEXITSTATUS in E, S. rewrite E, S. run.
  pose proof (Z.mod_pos_bound c 256 ltac:(lia)) as B.
  split; [split|split; [|split; [|split; reflexivity]]].
  - show_output. norm_append. reflexivity.
  - show_output. rewrite <- lines_no_nl by no_nl_tac.
    norm_append. reflexivity.
  - unfold field. plain_digits. split_tokens. reflexivity.
  - split; intros H; [lia|apply Z.mod_small; lia].
Qed.

Lemma group_command_session_leader (k : kernel) (pid : Z) :
  is_self k pid = true ->
  is_session_leader k = true ->
  do_setpgid k pid pid = fail k EPERM.
Proof. intros S L. rewrite (setpgid_self k pid S), L. reflexivity. Qed.

(** X21: [become-group-leader] and [setpgid-explicit] on a POSIX kernel: a
    session leader is refused with [errno] 1 under the command's own
    message; any other process gets the same [OK] line from both commands,
    with [pgid] equal to its pid and its session unchanged, and may repeat
    the command with the same result. *)
Theorem group_commands_on_posix (k : kernel) :
  let r0 := invoke (posix p) p (a0 :: "become-group-leader" :: rest) k in
  let r1 := invoke (posix p) p (a0 :: "setpgid-explicit" :: rest) k in
  (is_session_leader k = true ->
   prints_line r0 (error_line EPERM "setpgid_failed") /\ exit_status r0 = 1
   /\ prints_line r1 (error_line EPERM "setpgid_explicit_failed")
   /\ exit_status r1 = 1)
  /\ (is_session_leader k = false ->
      r0 = r1
      /\ prints_line r0
           (status_line "OK" (Z.pos (k_pid k)) (k_ppid k) (Z.pos (k_pid k))
              (Z.pos (k_sid k)) 0)
      /\ exit_status r0 = 0
      /\ k_sid (kern (snd r0)) = k_sid k
      /\ invoke (posix p) p (a0 :: "become-group-leader" :: rest) (kern (snd r0))
         = r0).
Proof.
  cbv zeta. split.
  - intros L. unfold invoke.
    rewrite main_become_group_leader, main_setpgid_explicit. run.
    rewrite (group_command_session_leader k 0 (is_self_zero k) L).
    rewrite (group_command_session_leader k _ (is_self_pid k) L). run.
    repeat split; apply error_line_prints; try reflexivity;
      show_output; reflexivity.
  - intros L.
    set (k' := mkKernel (k_pid k) (k_ppid k) (k_pid k) (k_sid k) (k_errno k)
                 (k_gap k) (k_slots k) (k_zombies k) (k_stops k) (k_fate k)).
    set (out := status_line "OK" (Z.pos (k_pid k)) (k_ppid k) (Z.pos (k_pid k))
                  (Z.pos (k_sid k)) 0 +++ nl).
    assert (E0 : forall k0 : kernel,
               k0 = k \/ k0 = k' ->
               invoke (posix p) p (a0 :: "become-group-leader" :: rest) k0
               = (0, mkProcess k' "" out "")).
    { intros k0 Hk0. unfold invoke. rewrite main_become_group_leader. run.
      rewrite (setpgid_self k0 0 (is_self_zero k0)).
      replace (is_session_leader k0) with false
        by (destruct Hk0; subst k0; [symmetry; exact L|symmetry; exact L]).
      run. rewrite Pos.eqb_refl. run. unfold flush.
      cbn [kern buffered stdout stderr append]. rewrite append_nil_r.
      destruct Hk0; subst k0; reflexivity. }
    assert (E1 : invoke (posix p) p (a0 :: "setpgid-explicit" :: rest) k
                 = (0, mkProcess k' "" out "")).
    { unfold invoke. rewrite main_setpgid_explicit. run.
      rewrite (setpgid_self k _ (is_self_pid k)), L. run.
      rewrite !Pos.eqb_refl. run. rewrite Pos.eqb_refl. run. unfold flush.
      cbn [kern buffered stdout stderr append]. rewrite append_nil_r.
      reflexivity. }
    rewrite (E0 k (or_introl eq_refl)), E1. cbn [snd kern].
    split; [reflexivity|]. split.
    { apply prints_line_intro; [reflexivity|apply status_line_no_nl]. }
    split; [reflexivity|]. split; [reflexivity|].
    apply E0. right. reflexivity.
Qed.
End OnPosix.

(* ================================================================== *)
(** ** The further theorems at concrete inputs *)
(* ================================================================== *)

Lemma stop_wrappers_are_platform_specific_witness :
  swift_WIFCONTINUED Linux 0xffff <> 0 /\ swift_WIFCONTINUED Darwin 0x137f <> 0
  /\ swift_WSTOPSIG Darwin 0x137f = swift_WEXITSTATUS Darwin 0x137f.
Proof.
  split; [|split].
  - apply (proj1 (stop_wrappers_are_platform_specific 0xffff)). reflexivity.
  - apply (proj1 (proj2 (stop_wrappers_are_platform_specific 0x137f))).
    left. reflexivity.
  - apply (proj2 (proj2 (proj2 (proj2 (stop_wrappers_are_platform_specific 0x137f))))).
    lia.
Defined.

Lemma coredump_flag_is_bit_seven_witness : swift_WCOREDUMP Linux 0x137f = 0.
Proof.
  apply (proj2 (proj2 (coredump_flag_is_bit_seven Linux 0x137f))).
  vm_compute. discriminate.
Defined.

Lemma normal_exit_round_trip_witness :
  swift_WEXITSTATUS Darwin (WaitStatus.W_EXITCODE 42) = 42.
Proof.
  apply (proj1 (proj2 (proj2 (normal_exit_round_trip Darwin 42)))). lia.
Defined.

Lemma create_session_follows_setsid_witness :
  prints_line (invoke (posix Linux) Linux ["posix-test-helper"; "create-session"] member)
    "OK pid=100 ppid=50 pgid=100 sid=100 exit=0"
  /\ prints_line
       (invoke (posix Linux) Linux ["posix-test-helper"; "create-session"] leader)
       "ERR errno=1 msg=setsid_failed".
Proof.
  split.
  - apply (proj1 (create_session_follows_setsid (posix Linux) Linux member
                    "posix-test-helper" [])).
    reflexivity.
  - apply (proj1 (proj2 (create_session_follows_setsid (posix Linux) Linux leader
                           "posix-test-helper" []))).
    vm_compute. discriminate.
Defined.

Lemma fork_exit_failure_paths_witness :
  prints_line (invoke (posix Linux) Linux ["posix-test-helper"; "fork-exit"; "3"] crowded)
    "ERR errno=11 msg=fork_failed"
  /\ prints_line
       (invoke (interrupted Linux) Linux ["posix-test-helper"; "fork-exit"; "3"] member)
       "ERR errno=4 msg=waitpid_failed".
Proof.
  split.
  - edestruct (proj1 (fork_exit_failure_paths (posix Linux) Linux crowded
                        "posix-test-helper" ["3"])) as (H & _).
    + reflexivity.
    + exact H.
  - edestruct (proj2 (fork_exit_failure_paths (interrupted Linux) Linux member
                        "posix-test-helper" ["3"])) as (H & _).
    + reflexivity.
    + reflexivity.
    + vm_compute. discriminate.
    + exact H.
Defined.

Lemma exit_status_tells_ok_witness :
  exit_status (invoke (posix Linux) Linux ["posix-test-helper"; "double-setsid"] member) = 0
  <-> prints_ok (invoke (posix Linux) Linux ["posix-test-helper"; "double-setsid"] member).
Proof.
  apply (exit_status_tells_ok (posix Linux) Linux member
           ["posix-test-helper"; "double-setsid"]);
    vm_compute; discriminate.
Defined.

Lemma writes_to_exactly_one_stream_witness :
  exit_status (invoke (posix Linux) Linux ["posix-test-helper"; "verify-parent"] member) = 1.
Proof.
  apply (proj2 (proj2 (writes_to_exactly_one_stream (posix Linux) Linux member
                         ["posix-test-helper"; "verify-parent"]))).
  vm_compute. discriminate.
Defined.

Lemma usage_lists_the_dispatched_commands_witness :
  main Linux ["posix-test-helper"; "fork-exit"]
  <> (fprintf_stderr ("Unknown command: " +++ "fork-exit" +++ nl) ;; Ret 1)%prog.
Proof.
  apply (proj1 (proj2 (usage_lists_the_dispatched_commands Linux kernel
                         (posix Linux) member "posix-test-helper" "fork-exit" []))).
  vm_compute. tauto.
Defined.

Lemma print_status_line_reads_back_witness :
  exec (posix Linux) (print_status "OK" 7 ;; Ret 7) (start member)
  = (7, mkProcess member "" ("OK pid=100 ppid=50 pgid=60 sid=60 exit=7" +++ nl) "")
  /\ field "sid" "OK pid=100 ppid=50 pgid=60 sid=60 exit=7" = Some "60".
Proof.
  pose proof (print_status_line_reads_back (posix Linux) (start member) "OK" 7 7
                eq_refl eq_refl) as H.
  cbn in H. destruct H as (E & _ & _ & _ & _ & _ & S & _).
  split; [exact E|exact S].
Defined.

Lemma print_error_line_reads_back_witness :
  field "msg" (error_line 1 "setsid_failed") = Some "setsid_failed".
Proof.
  apply (proj2 (print_error_line_reads_back (posix Linux) (start member) 1
                  "setsid_failed" 1)).
  reflexivity.
Defined.

Lemma verify_parent_accepts_the_printed_ppid_witness :
  prints_ok (invoke (posix Linux) Linux ["posix-test-helper"; "verify-parent"; "50"] member).
Proof.
  apply (verify_parent_accepts_the_printed_ppid (posix Linux) Linux member
           "posix-test-helper" []).
  cbn. lia.
Defined.

Lemma fork_exit_calls_witness :
  calls (posix Linux) Linux ["posix-test-helper"; "fork-exit"; "3"] member
  = [ForkChild 101 [] 3; Waited 101 0 101 768; Called Getpid 100]
  /\ calls (posix Linux) Linux ["posix-test-helper"; "fork-exit"; "3"] crowded
     = [ForkFailure].
Proof.
  split.
  - exact (proj2 (fork_exit_calls (posix Linux) Linux member
                    "posix-test-helper" ["3"]) _ _ _ _ _ _ eq_refl eq_refl).
  - exact (proj1 (fork_exit_calls (posix Linux) Linux crowded
                    "posix-test-helper" ["3"]) _ eq_refl).
Defined.

Lemma commands_keep_to_their_calls_witness :
  List.nth 1 ["posix-test-helper"; "stop-exit"; "5"] "" = "stop-exit"
  /\ 19 = SIGSTOP Linux.
Proof.
  apply (proj1 (proj2 (commands_keep_to_their_calls (posix Linux) Linux member
                         ["posix-test-helper"; "stop-exit"; "5"])) 19 0).
  vm_compute. left. reflexivity.
Defined.

Lemma create_session_on_posix_witness :
  exit_status (invoke (posix Linux) Linux ["posix-test-helper"; "create-session"] member) = 0
  /\ exit_status (invoke (posix Linux) Linux ["posix-test-helper"; "create-session"] leader)
     = 1.
Proof.
  split.
  - apply (proj1 (create_session_on_posix Linux "posix-test-helper" [] member)).
    reflexivity.
  - apply (proj2 (create_session_on_posix Linux "posix-test-helper" [] leader)).
    reflexivity.
Defined.

Lemma double_setsid_of_a_group_leader_witness :
  prints_line (invoke (posix Linux) Linux ["posix-test-helper"; "double-setsid"] leader)
    "ERR errno=1 msg=first_setsid_failed".
Proof.
  apply (double_setsid_of_a_group_leader Linux "posix-test-helper" [] leader).
  reflexivity.
Defined.

Lemma fork_exit_reports_low_byte_witness :
  prints_line (invoke (posix Linux) Linux ["posix-test-helper"; "fork-exit"; "342"] member)
    "OK pid=100 child=101 child_exit=86".
Proof.
  apply (fork_exit_reports_low_byte Linux "posix-test-helper" [] member "342").
  - cbn. lia.
  - reflexivity.
Defined.

Lemma group_commands_on_posix_witness :
  prints_line
    (invoke (posix Linux) Linux ["posix-test-helper"; "become-group-leader"] leader)
    "ERR errno=1 msg=setpgid_failed"
  /\ invoke (posix Linux) Linux ["posix-test-helper"; "become-group-leader"] member
     = invoke (posix Linux) Linux ["posix-test-helper"; "setpgid-explicit"] member.
Proof.
  split.
  - apply (proj1 (group_commands_on_posix Linux "posix-test-helper" [] leader)).
    reflexivity.
  - apply (proj2 (group_commands_on_posix Linux "posix-test-helper" [] member)).
    reflexivity.
Defined.
